(** * ECG_AFIB: data preparation and evaluation reporting

    A shallow embedding of the glue code shared by the three experiment
    scripts [CNN_LSTM_Hybrid.py], [GradientBoost.py] and
    [resnet_Optimized.py]: the quality filters of [prepare_data], the
    hand-over to the scaler, the resampler and the splitter, the metric
    computation of [evaluate_model], the report files written by
    [create_classification_report_image] and [create_pdf] and removed by
    [delete_images], and the model file written by the model builders.

    Table cells are IEEE binary64 numbers, as pandas holds them, and are
    modelled by Rocq's primitive floats, so that [nan], the infinities and
    the rounding of the literal [0.3] behave as they do in Python.

    The functions of the scripts take the library calls they make
    (scikit-learn, imbalanced-learn, Keras, XGBoost) as parameters.  What
    those libraries do is described apart from the scripts: the splitter
    and the resampler after the specification, the scaler's input check
    and the metrics after scikit-learn's documented behaviour, the number
    of axes a layer accepts after Keras's, with the arithmetic and the
    random draws left as parameters.  An area under a
    ROC curve is an exact rational here; scikit-learn rounds it to
    binary64. *)

From Stdlib Require Import PrimFloat FloatOps FloatAxioms SpecFloat ZArith QArith.
From stdpp Require Import base list gmap strings pretty.

Open Scope float_scope.

(** ** Python exceptions and results *)

(** An exception is identified by its class name; the message is kept for
    reading. *)
Record exn := Exn { exn_class : string; exn_msg : string }.

Inductive result (A : Type) : Type :=
| Return (a : A)
| Raise (e : exn).
Arguments Return {A} a.
Arguments Raise {A} e.

Global Instance result_ret : MRet result := fun A a => Return a.
Global Instance result_bind : MBind result := fun A B k c =>
  match c with
  | Return a => k a
  | Raise e => Raise e
  end.

Definition raises {A} (c : result A) (cls : string) : Prop :=
  exists e, c = Raise e /\ exn_class e = cls.

(** ** The feature table *)

(** One record of the input file: the eight HRV features, the quality score
    and the two label columns that the scripts read. *)
Record FeatureRow := {
  hrv_sdnn : float;
  hrv_rmssd : float;
  hrv_mean : float;
  cv : float;
  heart_rate_std : float;
  heart_rate_mean : float;
  sd1 : float;
  sd2 : float;
  signal_quality : float;
  num_AFIB_annotations : Z;
  has_AFIB : Z
}.

(** A [Series] pairs each value with the index label of its row; a
    [DataFrame] is a series of records.  [pd.read_csv] numbers the rows
    0, 1, 2, ... and no step of the scripts renumbers them. *)
Definition Series (A : Type) := list (nat * A).
Definition DataFrame := Series FeatureRow.

(** [df[name]]: one column, with the labels of the rows. *)
Definition column {A} (f : FeatureRow -> A) (df : DataFrame) : Series A :=
  map (fun ir => (ir.1, f ir.2)) df.

(** [series <= c] and [series >= c]: element-wise comparison with a scalar.
    A comparison with [nan] is [false] on both sides. *)
Definition series_le (s : Series float) (c : float) : Series bool :=
  map (fun iv => (iv.1, iv.2 <=? c)) s.
Definition series_ge (s : Series float) (c : float) : Series bool :=
  map (fun iv => (iv.1, c <=? iv.2)) s.

(** [df[mask]] for a boolean series [mask] computed from [df] itself: the
    rows at which the mask is [True], in the order of [df], labels and
    cells as they were. *)
Fixpoint getitem_mask (df : DataFrame) (mask : Series bool) : DataFrame :=
  match df, mask with
  | r :: df', (_, b) :: mask' =>
      if b then r :: getitem_mask df' mask' else getitem_mask df' mask'
  | _, _ => []
  end.

(** ** The quality filters of [prepare_data] *)

(** The literal [0.3] of the recurrent and boosted scripts denotes the
    binary64 number nearest to three tenths; [0.5] and [500] are exact. *)
Definition SQ_03 : float := 0x1.3333333333333p-2.
Definition SQ_05 : float := 0.5.

Section QualityFilter.
(** The minimum [signal_quality], the one number in which the filter
    lines of the three scripts differ. *)
Variable sq_min : float.

(** Lines 26, 29, 32 and 35 of [CNN_LSTM_Hybrid.py] (21 to 30 of
    [GradientBoost.py], 25 to 34 of [resnet_Optimized.py]), one
    reassignment of [df] each. *)
Definition filter_sdnn (df : DataFrame) : DataFrame :=
  getitem_mask df (series_le (column hrv_sdnn df) 500).
Definition filter_rmssd (df : DataFrame) : DataFrame :=
  getitem_mask df (series_le (column hrv_rmssd df) 500).
Definition filter_cv (df : DataFrame) : DataFrame :=
  getitem_mask df (series_le (column cv df) 0.5).
Definition filter_quality (df : DataFrame) : DataFrame :=
  getitem_mask df (series_ge (column signal_quality df) sq_min).

Definition quality_filters (df : DataFrame) : DataFrame :=
  let df := filter_sdnn df in
  let df := filter_rmssd df in
  let df := filter_cv df in
  let df := filter_quality df in
  df.

(** The four threshold predicates on one record. *)
Definition sdnn_ok (r : FeatureRow) : bool := hrv_sdnn r <=? 500.
Definition rmssd_ok (r : FeatureRow) : bool := hrv_rmssd r <=? 500.
Definition cv_ok (r : FeatureRow) : bool := cv r <=? 0.5.
Definition quality_ok (r : FeatureRow) : bool := sq_min <=? signal_quality r.

Definition row_ok (r : FeatureRow) : bool :=
  sdnn_ok r && rmssd_ok r && cv_ok r && quality_ok r.

(** The four filter lines, as steps that can be run in any order. *)
Inductive filter_step := StepSdnn | StepRmssd | StepCv | StepQuality.

Definition run_step (s : filter_step) : DataFrame -> DataFrame :=
  match s with
  | StepSdnn => filter_sdnn
  | StepRmssd => filter_rmssd
  | StepCv => filter_cv
  | StepQuality => filter_quality
  end.

Definition step_ok (s : filter_step) : FeatureRow -> bool :=
  match s with
  | StepSdnn => sdnn_ok
  | StepRmssd => rmssd_ok
  | StepCv => cv_ok
  | StepQuality => quality_ok
  end.

(** Running a sequence of filter lines, first to last. *)
Definition run_steps (ss : list filter_step) (df : DataFrame) : DataFrame :=
  foldl (fun d s => run_step s d) df ss.

Definition source_order : list filter_step :=
  [StepSdnn; StepRmssd; StepCv; StepQuality].
End QualityFilter.

(** What the specification says the filter returns: the rows of the input
    that pass all four predicates, in input order. *)
Definition rows_passing (sq_min : float) (df : DataFrame) : DataFrame :=
  List.filter (fun ir => row_ok sq_min ir.2) df.

(** ** The splitter: [train_test_split(x, y, test_size=0.2, random_state=42)] *)

(** The four arrays that [train_test_split] returns for two inputs. *)
Record Split (X Y : Type) := MkSplit {
  x_train : list X;
  x_test : list X;
  y_train : list Y;
  y_test : list Y
}.
Arguments MkSplit {X Y}.
Arguments x_train {X Y}.
Arguments x_test {X Y}.
Arguments y_train {X Y}.
Arguments y_test {X Y}.

(** The number of test rows for the fraction [num/den] of [n] rows, rounded
    up to a whole row. *)
Definition n_test_of (num den n : nat) : nat := (num * n + (den - 1)) / den.

(** Rows of an array at the given positions, in the order of the
    positions. *)
Definition safe_indexing {A} (a : list A) (idx : list nat) : list A :=
  omap (fun i => a !! i) idx.

Section Splitter.
(** The pseudo-random generator: its states, seeding, and the shuffle of
    [0 .. n-1] it draws from a state. *)
Variable rng_state : Type.
Variable RandomState : Z -> rng_state.
Variable rng_permutation : rng_state -> nat -> list nat.

(** An integer [random_state] seeds a generator of its own; with [None]
    the process-wide generator is used, in whatever state it is. *)
Definition check_random_state (random_state : option Z) (global : rng_state)
  : rng_state :=
  match random_state with
  | Some seed => RandomState seed
  | None => global
  end.

(** The positions of the train rows and of the test rows. *)
Definition split_indices (n n_test : nat) (random_state : option Z)
    (global : rng_state) : list nat * list nat :=
  let rng := check_random_state random_state global in
  let permutation := rng_permutation rng n in
  let ind_test := take n_test permutation in
  let ind_train := take (n - n_test) (drop n_test permutation) in
  (ind_train, ind_test).

(** Modelled from the spec: the Splitter (scikit-learn's
    [train_test_split], which is not part of the repository).  Section
    4.4: a seeded random shuffle, then 20% of the rows to the test subset
    and the rest to the train subset; a fraction of a row counts as a
    whole test row, and a split that would leave the train subset empty
    is an error, as in scikit-learn. *)
Definition train_test_split {X Y} (xs : list X) (ys : list Y)
    (test_num test_den : nat) (random_state : option Z)
    (global : rng_state) : result (Split X Y) :=
  if negb (length xs =? length ys)%nat then
    Raise (Exn "ValueError"
             "Found input variables with inconsistent numbers of samples")
  else
    let n := length xs in
    let n_test := n_test_of test_num test_den n in
    if (n - n_test =? 0)%nat then
      Raise (Exn "ValueError" "the resulting train set will be empty")
    else
      let '(ind_train, ind_test) :=
        split_indices n n_test random_state global in
      Return (MkSplit (safe_indexing xs ind_train) (safe_indexing xs ind_test)
                      (safe_indexing ys ind_train) (safe_indexing ys ind_test)).
End Splitter.

(** ** The resampler: [SMOTE(random_state=42).fit_resample(x, y)] *)

Definition count_label (c : Z) (y : list Z) : nat :=
  length (List.filter (Z.eqb c) y).

(** The rows of [x] whose label is [c]. *)
Fixpoint rows_of_class (c : Z) (x : list (list float)) (y : list Z)
  : list (list float) :=
  match x, y with
  | r :: x', l :: y' =>
      if (c =? l)%Z then r :: rows_of_class c x' y' else rows_of_class c x' y'
  | _, _ => []
  end.

(** Squared Euclidean distance of two feature vectors. *)
Definition dist2 (a b : list float) : float :=
  foldr (fun d acc => d * d + acc) 0 (zip_with PrimFloat.sub a b).

(** [a + gap * (b - a)], coordinate by coordinate. *)
Definition interpolate (gap : float) (a b : list float) : list float :=
  zip_with (fun u v => u + gap * (v - u)) a b.

(** Insertion of a row into a list of rows ordered by distance to [a]. *)
Fixpoint insert_by_dist (a r : list float) (l : list (list float))
  : list (list float) :=
  match l with
  | [] => [r]
  | r' :: l' =>
      if dist2 a r <=? dist2 a r' then r :: l
      else r' :: insert_by_dist a r l'
  end.

Definition sort_by_dist (a : list float) (l : list (list float))
  : list (list float) :=
  foldr (insert_by_dist a) [] l.

(** The [k] rows of [rows] nearest to the row at position [i], that row
    itself left out. *)
Definition nearest (k i : nat) (rows : list (list float))
  : list (list float) :=
  match rows !! i with
  | Some a => take k (sort_by_dist a (take i rows ++ drop (S i) rows))
  | None => []
  end.

Section Resampler.
(** The number of neighbours, 5 unless configured. *)
Variable k_neighbors : nat.
(** The [j]-th draw of the generator seeded with [seed]: a minority row,
    one of its neighbours, and the position between the two. *)
Variable draw : Z -> nat -> nat * nat * float.

(** One synthetic row from one draw. *)
Definition synthesize (rows : list (list float)) (d : nat * nat * float)
  : list (list float) :=
  let i := (d.1.1 mod length rows)%nat in
  match rows !! i, nearest k_neighbors i rows !! (d.1.2 mod k_neighbors)%nat with
  | Some a, Some b => [interpolate d.2 a b]
  | _, _ => []
  end.

(** Modelled from the spec: the Resampler (imbalanced-learn's [SMOTE],
    which is not part of the repository).  Section 4.3: for a binary
    label, new rows of the minority class are synthesised until both
    classes have the same count, each a convex combination of a minority
    row and one of its [k] nearest rows of the same class; the original
    rows are kept, in order, before the new ones.  With no more minority
    rows than [k] there are not enough neighbours and the call fails
    with [InsufficientSamplesError]. *)
Definition fit_resample (seed : Z) (x : list (list float)) (y : list Z)
  : result (list (list float) * list Z) :=
  let n0 := count_label 0 y in
  let n1 := count_label 1 y in
  if (n0 =? n1)%nat then Return (x, y)
  else
    let minority := if (n0 <? n1)%nat then 0%Z else 1%Z in
    let need := ((n0 `max` n1) - (n0 `min` n1))%nat in
    let rows := rows_of_class minority x y in
    if (length rows <=? k_neighbors)%nat then
      Raise (Exn "InsufficientSamplesError"
               "the minority class has too few rows for its neighbours")
    else
      let new := concat (map (fun j => synthesize rows (draw seed j))
                             (seq 0 need)) in
      Return (x ++ new, y ++ replicate (length new) minority).
End Resampler.

(** ** The scaler: [StandardScaler().fit_transform(df[features])] *)

Section Scaler.
(** The arithmetic of the scaler on a table with at least one row: every
    column shifted by its mean and divided by its standard deviation. *)
Variable standardize : list (list float) -> list (list float).

(** scikit-learn validates the input before fitting and refuses a table
    with no rows; the scripts rely on that check and have none of their
    own. *)
Definition fit_transform (x : list (list float))
  : result (list (list float)) :=
  match x with
  | [] => Raise (Exn "ValueError"
                   "Found array with 0 sample(s) while a minimum of 1 is required by StandardScaler")
  | _ :: _ => Return (standardize x)
  end.
End Scaler.

(** ** [prepare_data] *)

(** [to_categorical(y, num_classes)]: one row per label, with a one at the
    position of the label. *)
Definition one_hot (num_classes : nat) (l : Z) : list Z :=
  map (fun j => if (Z.of_nat j =? l)%Z then 1%Z else 0%Z) (seq 0 num_classes).

Definition to_categorical (y : list Z) (num_classes : option nat)
  : list (list Z) :=
  let nc := match num_classes with
            | Some nc => nc
            | None => Z.to_nat (foldr Z.max (-1)%Z y + 1)
            end in
  map (one_hot nc) y.

(** [x.values.reshape((n, m, 1))]: every cell becomes a list of its own. *)
Definition reshape_nm1 (x : list (list float)) : list (list (list float)) :=
  map (map (fun v => [v])) x.

Definition features8 (r : FeatureRow) : list float :=
  [hrv_sdnn r; hrv_rmssd r; hrv_mean r; cv r;
   heart_rate_std r; heart_rate_mean r; sd1 r; sd2 r].

Definition features4 (r : FeatureRow) : list float :=
  [hrv_sdnn r; hrv_rmssd r; hrv_mean r; cv r].

Section PrepareData.
(** The three library calls of [prepare_data], with the keyword arguments
    the scripts give them: [StandardScaler().fit_transform(.)],
    [SMOTE(random_state=42).fit_resample(., .)] and
    [train_test_split(., ., test_size=0.2, random_state=42)]. *)
Variable scale : list (list float) -> result (list (list float)).
Variable resample :
  list (list float) -> list Z -> result (list (list float) * list Z).
Variables X Y : Type.
Variable split : list X -> list Y -> result (Split X Y).

(** What differs between the scripts: the quality threshold, the feature
    columns, the label column, and the layout of the arrays handed to the
    splitter. *)
Variable sq_min : float.
Variable features : FeatureRow -> list float.
Variable target : FeatureRow -> Z.
Variable layout_x : list (list float) -> list X.
Variable layout_y : list Z -> list Y.

Definition prepare_data_with (df : DataFrame) : result (Split X Y) :=
  let df := quality_filters sq_min df in
  scaled ← scale (map (fun ir => features ir.2) df);
  let x := scaled in
  let y := map (fun ir => target ir.2) df in
  res ← resample x y;
  split (layout_x res.1) (layout_y res.2).
End PrepareData.


(** ** Files and the commands that touch them *)

(** A hyperparameter value. *)
Inductive pyval := PyInt (z : Z) | PyFloat (f : float).

(** An estimator object: its class, the hyperparameters it was built with
    and the number of [fit] calls it has completed. *)
Record estimator := MkEstimator {
  est_class : string;
  est_hyper : list (string * pyval);
  est_fits : nat
}.

(** [model.fit(...)]: the object is trained in place; a file written from
    it earlier is a copy and does not change. *)
Definition fit (model : estimator) : estimator :=
  MkEstimator (est_class model) (est_hyper model) (S (est_fits model)).

(** What a file holds.  [M] is the type of the metric values that
    scikit-learn returns. *)
Inductive artifact (M : Type) : Type :=
| TableImage (cells : list (string * list M))
| HeatmapImage (conf_matrix : list (list nat))
| PdfReport (accuracy roc_auc : M) (cells : list (string * list M))
            (conf_matrix : list (list nat))
| SavedModel (model : estimator).
Arguments TableImage {M} cells.
Arguments HeatmapImage {M} conf_matrix.
Arguments PdfReport {M} accuracy roc_auc cells conf_matrix.
Arguments SavedModel {M} model.

(** The part of the machine the scripts act on: the files that exist, by
    path, and the paths that cannot be opened for writing (a missing or
    protected directory). *)
Record World (M : Type) := MkWorld {
  files : gmap string (artifact M);
  unwritable : gset string
}.
Arguments MkWorld {M}.
Arguments files {M}.
Arguments unwritable {M}.

(** A command runs in a world and leaves a world behind, also when it
    raises: what was written before the exception stays written. *)
Definition io (M A : Type) : Type := World M -> result A * World M.

Definition io_ret {M A} (a : A) : io M A := fun w => (Return a, w).

Definition io_bind {M A B} (c : io M A) (k : A -> io M B) : io M B :=
  fun w =>
    match c w with
    | (Return a, w') => k a w'
    | (Raise e, w') => (Raise e, w')
    end.

(** A computation that touches no file, run as a command. *)
Definition io_lift {M A} (c : result A) : io M A := fun w => (c, w).

Declare Scope io_scope.
Delimit Scope io_scope with io.
Notation "x <- c ;; k" := (io_bind c (fun x => k))
  (at level 100, c at next level, right associativity) : io_scope.
Notation "c ;; k" := (io_bind c (fun _ => k))
  (at level 100, right associativity) : io_scope.

Section FileCommands.
Context {M : Type}.

(** [plt.savefig(path)], [pickle.dump(obj, open(path, 'wb'))],
    [model.save(path)], [canvas.save()]: create or replace the file. *)
Definition write_file (path : string) (a : artifact M) : io M unit :=
  fun w =>
    if decide (path ∈ unwritable w) then
      (Raise (Exn "OSError" path), w)
    else
      (Return tt, MkWorld (<[path := a]> (files w)) (unwritable w)).

(** [canvas.drawImage(path, ...)]: the image file is opened and read. *)
Definition read_file (path : string) : io M (artifact M) :=
  fun w =>
    match files w !! path with
    | Some a => (Return a, w)
    | None => (Raise (Exn "OSError" path), w)
    end.

(** [os.remove(path)]. *)
Definition os_remove (path : string) : io M unit :=
  fun w =>
    match files w !! path with
    | Some _ => (Return tt, MkWorld (delete path (files w)) (unwritable w))
    | None => (Raise (Exn "FileNotFoundError" path), w)
    end.
End FileCommands.

(** ** The report renderer *)

Definition classification_report_png : string := "classification_report.png".
Definition confusion_matrix_png : string := "confusion_matrix.png".

Section ReportRenderer.
Context {M : Type}.
(** The path of the report, the one thing in which [create_pdf] differs
    between the scripts. *)
Variable pdf_filename : string.

Definition create_classification_report_image
    (class_report_df : list (string * list M)) : io M unit :=
  write_file classification_report_png (TableImage class_report_df).

(** The canvas is filled in memory and written by [c.save()] at the end;
    the two images are read when they are drawn. *)
Definition create_pdf (accuracy roc_auc : M) (conf_matrix : list (list nat))
  : io M unit :=
  (table <- read_file classification_report_png ;;
   write_file confusion_matrix_png (HeatmapImage conf_matrix) ;;
   heatmap <- read_file confusion_matrix_png ;;
   let cells := match table with TableImage cells => cells | _ => [] end in
   let cm := match heatmap with HeatmapImage cm => cm | _ => [] end in
   write_file pdf_filename (PdfReport accuracy roc_auc cells cm))%io.

Definition delete_images : io M unit :=
  (os_remove classification_report_png ;;
   os_remove confusion_matrix_png)%io.

(** The last three statements of [evaluate_model]. *)
Definition render_report (accuracy roc_auc : M)
    (conf_matrix : list (list nat))
    (class_report_df : list (string * list M)) : io M unit :=
  (create_classification_report_image class_report_df ;;
   create_pdf accuracy roc_auc conf_matrix ;;
   delete_images)%io.
End ReportRenderer.

(** ** The evaluator *)

(** One- and two-dimensional arrays, the two shapes in which the scripts
    hand labels and scores to [roc_auc_score]. *)
Inductive ndarray (A : Type) : Type :=
| Arr1 (v : list A)
| Arr2 (rows : list (list A)).
Arguments Arr1 {A} v.
Arguments Arr2 {A} rows.

(** [a[:, j]]: column [j] of a two-dimensional array; an [IndexError] when
    a row is too short. *)
Definition column_of {A} (j : nat) (rows : list (list A)) : result (list A) :=
  match mapM (fun row => row !! j) rows with
  | Some col => Return col
  | None => Raise (Exn "IndexError" "index is out of bounds for axis 1")
  end.

(** [np.argmax(a, axis=1)] on one row: the position of the first largest
    entry; a [nan] counts as largest. *)
Fixpoint argmax_from (best_i : nat) (best : float) (i : nat) (row : list float)
  : nat :=
  match row with
  | [] => best_i
  | v :: row' =>
      if is_nan best then best_i
      else if is_nan v || (best <? v) then argmax_from i v (S i) row'
      else argmax_from best_i best (S i) row'
  end.

Definition argmax (row : list float) : nat :=
  match row with
  | [] => 0%nat
  | v :: row' => argmax_from 0 v 1 row'
  end.

Fixpoint argmaxZ_from (best_i : nat) (best : Z) (i : nat) (row : list Z) : nat :=
  match row with
  | [] => best_i
  | v :: row' =>
      if (best <? v)%Z then argmaxZ_from i v (S i) row'
      else argmaxZ_from best_i best (S i) row'
  end.

Definition argmaxZ (row : list Z) : nat :=
  match row with
  | [] => 0%nat
  | v :: row' => argmaxZ_from 0 v 1 row'
  end.

Section Evaluator.
Context {M : Type}.
Variable accuracy_score : list Z -> list Z -> M.
Variable confusion_matrix : list Z -> list Z -> list (list nat).
Variable classification_report : list Z -> list Z -> list (string * list M).
Variable roc_auc_score : ndarray Z -> ndarray float -> result M.
Variable pdf_filename : string.

(** [GradientBoost.evaluate_model]: labels are a vector, and the score
    handed to [roc_auc_score] is column 1 of [predict_proba]. *)
Definition evaluate_model_boosted {X} (predict_proba : list X -> list (list float))
    (predict : list X -> list Z) (x_test : list X) (y_test : list Z)
  : io M unit :=
  let y_pred_proba := predict_proba x_test in
  let y_pred := predict x_test in
  let accuracy := accuracy_score y_test y_pred in
  let conf_matrix := confusion_matrix y_test y_pred in
  (roc_auc <- io_lift (col ← column_of 1 y_pred_proba;
                       roc_auc_score (Arr1 y_test) (Arr1 col)) ;;
   let class_report := classification_report y_test y_pred in
   render_report pdf_filename accuracy roc_auc conf_matrix class_report)%io.

(** [CNN_LSTM_Hybrid.evaluate_model] and
    [resnet_Optimized.evaluate_model]: labels are one-hot rows, and
    [roc_auc_score] receives them and the whole probability matrix. *)
Definition evaluate_model_network {X} (predict : list X -> list (list float))
    (x_test : list X) (y_test : list (list Z)) : io M unit :=
  let y_pred_proba := predict x_test in
  let y_pred := map (fun row => Z.of_nat (argmax row)) y_pred_proba in
  let y_true := map (fun row => Z.of_nat (argmaxZ row)) y_test in
  let accuracy := accuracy_score y_true y_pred in
  let conf_matrix := confusion_matrix y_true y_pred in
  (roc_auc <- io_lift (roc_auc_score (Arr2 y_test) (Arr2 y_pred_proba)) ;;
   let class_report := classification_report y_true y_pred in
   render_report pdf_filename accuracy roc_auc conf_matrix class_report)%io.
End Evaluator.

(** ** scikit-learn's [roc_auc_score] *)

(** The area under the ROC curve of scores against binary labels, ties
    joined by straight segments, in its rank form: the share of
    (positive, negative) pairs that the score orders correctly, a tie
    counting for half a pair.  [pair_score] counts in half pairs. *)
Definition pair_score (sp sn : float) : Z :=
  if sn <? sp then 2%Z else if sp =? sn then 1%Z else 0%Z.

Definition scores_of (c : Z) (y : list Z) (s : list float) : list float :=
  omap (fun ls => if (ls.1 =? c)%Z then Some ls.2 else None) (zip y s).

Definition sumZ (l : list Z) : Z := foldr Z.add 0%Z l.

Definition pair_total (pos neg : list float) : Z :=
  sumZ (map (fun sp => sumZ (map (pair_score sp) neg)) pos).

Definition area_under_roc (y : list Z) (s : list float) : Q :=
  let pos := scores_of 1 y s in
  let neg := scores_of 0 y s in
  Qmake (pair_total pos neg)
        (Pos.of_nat (2 * length pos * length neg)).

Definition only_one_class (y : list Z) : bool :=
  match y with
  | [] => true
  | c :: y' => forallb (Z.eqb c) y'
  end.

(** scikit-learn's metrics, after the library's documentation; the
    library is not part of the repository. *)
Module sklearn.
(** Pairs (true label, predicted label) equal to [(t, p)]. *)
Definition count_pairs (t p : Z) (y_true y_pred : list Z) : nat :=
  length (List.filter (fun tp => (tp.1 =? t)%Z && (tp.2 =? p)%Z)
                      (zip y_true y_pred)).

Definition ratio (num den : nat) : Q :=
  if (den =? 0)%nat then 0%Q
  else Qmake (Z.of_nat num) (Pos.of_nat den).

Definition accuracy_score (y_true y_pred : list Z) : Q :=
  ratio (length (List.filter (fun tp => (tp.1 =? tp.2)%Z) (zip y_true y_pred)))
        (length y_true).

(** The labels that occur, in increasing order, each once. *)
Fixpoint insert_label (l : Z) (ls : list Z) : list Z :=
  match ls with
  | [] => [l]
  | l' :: ls' =>
      if (l <? l')%Z then l :: ls
      else if (l =? l')%Z then ls
      else l' :: insert_label l ls'
  end.

Definition unique_labels (y_true y_pred : list Z) : list Z :=
  foldr insert_label [] (y_true ++ y_pred).

Definition confusion_matrix (y_true y_pred : list Z) : list (list nat) :=
  let labels := unique_labels y_true y_pred in
  map (fun t => map (fun p => count_pairs t p y_true y_pred) labels) labels.

(** [classification_report(..., output_dict=True)] as the table that
    [evaluate_model] makes of it: a row per label with precision, recall,
    F1 and support, then the rows "accuracy", "macro avg" and
    "weighted avg"; a ratio with denominator zero is reported as zero. *)
Definition label_scores (y_true y_pred : list Z) (c : Z) : list Q :=
  let tp := count_pairs c c y_true y_pred in
  let precision := ratio tp (count_label c y_pred) in
  let recall := ratio tp (count_label c y_true) in
  let f1 := if Qeq_bool (precision + recall) 0 then 0%Q
            else (2 * precision * recall / (precision + recall))%Q in
  [precision; recall; f1; inject_Z (Z.of_nat (count_label c y_true))].

Definition sumQ (l : list Q) : Q := foldr Qplus 0%Q l.

Definition classification_report (y_true y_pred : list Z)
  : list (string * list Q) :=
  let labels := unique_labels y_true y_pred in
  let rows := map (label_scores y_true y_pred) labels in
  let n := inject_Z (Z.of_nat (length y_true)) in
  let k := inject_Z (Z.of_nat (length labels)) in
  let col j := map (fun r => (default 0%Q (r !! j), default 0%Q (r !! 3%nat))) rows in
  let macro j := (sumQ (map fst (col j)) / k)%Q in
  let weighted j := (sumQ (map (fun vs => vs.1 * vs.2)%Q (col j)) / n)%Q in
  let acc := accuracy_score y_true y_pred in
  zip (map pretty labels) rows
  ++ [("accuracy", [acc; acc; acc; acc]);
      ("macro avg", [macro 0%nat; macro 1%nat; macro 2%nat; n]);
      ("weighted avg", [weighted 0%nat; weighted 1%nat; weighted 2%nat; n])].

(** The score of one column.  With a single class in [y] the versions of
    the library up to 1.5 raise, as here; later ones warn and return
    [nan]. *)
Definition binary_roc_auc_score (y : list Z) (s : list float) : result Q :=
  if only_one_class y then
    Raise (Exn "ValueError"
             "Only one class present in y_true. ROC AUC score is not defined in that case.")
  else if (length y =? length s)%nat then Return (area_under_roc y s)
  else Raise (Exn "ValueError"
                "Found input variables with inconsistent numbers of samples").

(** [check_array] on the scores: a [nan] or an infinity is refused. *)
Definition is_finite (f : float) : bool :=
  negb (is_nan f) && negb (is_infinity f).

Definition check_array (s : list float) : result unit :=
  if existsb is_nan s then Raise (Exn "ValueError" "Input contains NaN.")
  else if forallb is_finite s then Return tt
  else Raise (Exn "ValueError" "Input contains infinity or a value too large.").

(** Columns of a matrix given by rows (the transpose). *)
Definition columns {A} (ncols : nat) (rows : list (list A))
  : result (list (list A)) :=
  mapM (fun j => column_of j rows) (seq 0 ncols).

Definition mean (l : list Q) : Q :=
  (foldr Qplus 0 l / inject_Z (Z.of_nat (length l)))%Q.

(** The scores are checked first, then the numbers of rows.  Vector
    labels: the binary score.  An indicator matrix of labels: the binary
    score of every column against the same column of the scores, and
    their unweighted mean ([average='macro'], the default). *)
Definition roc_auc_score (y_true : ndarray Z) (y_score : ndarray float)
  : result Q :=
  match y_true, y_score with
  | Arr1 y, Arr1 s =>
      _ ← check_array s;
      binary_roc_auc_score y s
  | Arr2 y, Arr2 s =>
      _ ← check_array (concat s);
      if (length y =? length s)%nat then
        let ncols := match y with [] => 0%nat | row :: _ => length row end in
        ycols ← columns ncols y;
        scols ← columns ncols s;
        aucs ← mapM (fun ys => binary_roc_auc_score ys.1 ys.2) (zip ycols scols);
        Return (mean aucs)
      else Raise (Exn "ValueError"
                    "Found input variables with inconsistent numbers of samples")
  | _, _ => Raise (Exn "ValueError" "bad input shape")
  end.
End sklearn.

(** ** Vocabulary for test sets with two classes *)

Definition binary_labels (ys : list Z) : Prop :=
  Forall (fun l => l = 0%Z \/ l = 1%Z) ys.



(** Every probability is a finite number. *)
Definition finite_rows (ps : list (float * float)) : Prop :=
  Forall (fun p => sklearn.is_finite p.1 = true /\ sklearn.is_finite p.2 = true) ps.


(** ** The report table of [evaluate_model] *)

(** A cell of the report table: a number, or a label. *)
Inductive cell (M : Type) : Type :=
| CellNum (v : M)
| CellStr (s : string).
Arguments CellNum {M} v.
Arguments CellStr {M} s.

(** A data frame by rows: the column names, and for every row its index
    label and its cells, one per column. *)
Record Frame (M : Type) := MkFrame {
  fr_columns : list string;
  fr_rows : list (string * list (cell M))
}.
Arguments MkFrame {M}.
Arguments fr_columns {M}.
Arguments fr_rows {M}.

(** The position of the first column of that name. *)
Definition column_position (name : string) (names : list string) : option nat :=
  fst <$> list_find (fun n => n = name) names.

(** [df[name] = df.index]: an existing column of that name is overwritten
    where it stands, a new one is appended. *)
Definition setitem_index {M} (name : string) (df : Frame M) : Frame M :=
  match column_position name (fr_columns df) with
  | Some j =>
      MkFrame (fr_columns df)
        (map (fun ir => (ir.1, <[j := CellStr ir.1]> ir.2)) (fr_rows df))
  | None =>
      MkFrame (fr_columns df ++ [name])
        (map (fun ir => (ir.1, ir.2 ++ [CellStr ir.1])) (fr_rows df))
  end.

(** [[cols[-1]] + cols[:-1]]; [cols[-1]] of an empty list is an
    [IndexError]. *)
Definition last_to_front {A} (cols : list A) : result (list A) :=
  match last cols with
  | Some c => Return (c :: take (length cols - 1) cols)
  | None => Raise (Exn "IndexError" "list index out of range")
  end.

(** [df[cols]] for a list of names: those columns, in that order; a name
    that is no column is a [KeyError]. *)
Definition getitem_columns {M} (cols : list string) (df : Frame M)
  : result (Frame M) :=
  match mapM (fun n => column_position n (fr_columns df)) cols with
  | Some js =>
      Return (MkFrame cols
                (map (fun ir => (ir.1, omap (fun j => ir.2 !! j) js))
                     (fr_rows df)))
  | None => Raise (Exn "KeyError" "not in index")
  end.

(** Lines 107 to 110 of [CNN_LSTM_Hybrid.py] (80 to 83 of
    [GradientBoost.py], 131 to 134 of [resnet_Optimized.py]): the index
    becomes a column called "labels", and the last column is moved to the
    front. *)
Definition label_report {M} (class_report_df : Frame M) : result (Frame M) :=
  let class_report_df := setitem_index "labels" class_report_df in
  let cols := fr_columns class_report_df in
  cols ← last_to_front cols;
  getitem_columns cols class_report_df.

(** Every row has one cell per column. *)
Definition rectangular {M} (df : Frame M) : Prop :=
  Forall (fun ir => length ir.2 = length (fr_columns df)) (fr_rows df).

(** ** Keras's check of a layer's input *)

(** The layers the recurrent script adds, and what Keras's documentation
    says of the number of axes they take and return (the batch axis
    counted): the convolution, the pooling and the recurrent layer take
    three axes, [Flatten] returns two, a recurrent layer returns three
    with [return_sequences] and two without.  A layer called on another
    number of axes raises [ValueError].  The sizes along the axes are not
    followed.  The library is not part of the repository. *)
Module keras.
Inductive layer :=
| Conv1D (filters kernel_size : Z)
| BatchNormalization
| MaxPooling1D (pool_size : Z)
| Flatten
| LSTM (units : Z) (return_sequences : bool)
| Dropout (rate : float)
| Dense (units : Z).

Definition incompatible (name : string) : exn :=
  Exn "ValueError" ("Input 0 of layer " +:+ name +:+ " is incompatible with the layer").

(** The number of axes of what the layer returns on an input of [ndim]
    axes. *)
Definition call (l : layer) (ndim : nat) : result nat :=
  match l with
  | Conv1D _ _ =>
      if (ndim =? 3)%nat then Return 3%nat else Raise (incompatible "conv1d")
  | BatchNormalization => Return ndim
  | MaxPooling1D _ =>
      if (ndim =? 3)%nat then Return 3%nat
      else Raise (incompatible "max_pooling1d")
  | Flatten => Return 2%nat
  | LSTM _ return_sequences =>
      if (ndim =? 3)%nat then Return (if return_sequences then 3%nat else 2%nat)
      else Raise (incompatible "lstm")
  | Dropout _ => Return ndim
  | Dense _ =>
      if (2 <=? ndim)%nat then Return ndim else Raise (incompatible "dense")
  end.

(** [model.add(layer)] for each layer in turn, on a [Sequential] whose
    first layer is given [input_shape]: the model is built as it grows,
    every layer is called on what the one before returns. *)
Fixpoint add (layers : list layer) (ndim : nat) : result nat :=
  match layers with
  | [] => Return ndim
  | l :: layers' => ndim' ← call l ndim; add layers' ndim'
  end.
End keras.

(** ** The three scripts *)

Module CNN_LSTM_Hybrid.
Definition quality_threshold : float := SQ_03.

Definition prepare_data scale resample split :=
  prepare_data_with scale resample _ _ split
    quality_threshold features8 num_AFIB_annotations
    reshape_nm1 (fun y => to_categorical y None).

Definition model_path : string := "../models/CNN_LSTM_Hybrid_model.keras".
Definition pdf_filename : string := "../reports/model_evaluation_CNN_LSTM.pdf".

(** The layers of lines 57 to 71, in the order they are added. *)
Definition layers (num_filters kernel_size lstm_units : Z) (dropout_rate : float)
  : list keras.layer :=
  [keras.Conv1D num_filters kernel_size;
   keras.BatchNormalization;
   keras.MaxPooling1D 2;
   keras.Conv1D (num_filters * 2) kernel_size;
   keras.BatchNormalization;
   keras.MaxPooling1D 2;
   keras.Flatten;
   keras.LSTM lstm_units true;
   keras.Dropout dropout_rate;
   keras.LSTM lstm_units true;
   keras.Dropout dropout_rate;
   keras.LSTM lstm_units false;
   keras.Dropout dropout_rate;
   keras.Dense 2].

(** Lines 56 to 71 against Keras: the first layer carries [input_shape],
    so the input has one axis more than [input_shape] has entries, and
    every [model.add] calls the new layer. *)
Definition add_layers (input_shape : list Z)
    (num_filters kernel_size lstm_units : Z) (dropout_rate : float)
  : result unit :=
  _ ← keras.add (layers num_filters kernel_size lstm_units dropout_rate)
        (S (length input_shape));
  Return tt.

(** Lines 56 to 72 add the layers and compile the model; that is Keras's
    work, which checks the shapes as the layers are added and may raise
    (the parameter [add_layers]; the script's own layers give the
    [add_layers] above).  Then the model is saved, then returned; no line
    of the function trains it. *)
Definition build_cnn_lstm_model {M}
    (add_layers : Z -> Z -> Z -> float -> result unit)
    (num_filters kernel_size lstm_units : Z) (dropout_rate : float)
  : io M estimator :=
  (io_lift (add_layers num_filters kernel_size lstm_units dropout_rate) ;;
   let model :=
     MkEstimator "Sequential"
       [("num_filters", PyInt num_filters); ("kernel_size", PyInt kernel_size);
        ("lstm_units", PyInt lstm_units); ("dropout_rate", PyFloat dropout_rate)]
       0 in
   write_file model_path (SavedModel model) ;;
   io_ret model)%io.

(** One trial of the search, up to the fit. *)
Definition objective {M} add_layers (trial : Z * Z * Z * float)
  : io M estimator :=
  let '(num_filters, kernel_size, lstm_units, dropout_rate) := trial in
  (model <- build_cnn_lstm_model add_layers num_filters kernel_size lstm_units
              dropout_rate ;;
   io_ret (fit model))%io.

Fixpoint optimize {M} add_layers (trials : list (Z * Z * Z * float))
  : io M unit :=
  match trials with
  | [] => io_ret tt
  | t :: trials' => (objective add_layers t ;; optimize add_layers trials')%io
  end.

(** [main] from the search to the fitted best model; the trials and the
    best parameters are what the search library proposes. *)
Definition main_training {M} add_layers (trials : list (Z * Z * Z * float))
    (best_params : Z * Z * Z * float) : io M estimator :=
  (optimize add_layers trials ;;
   let '(num_filters, kernel_size, lstm_units, dropout_rate) := best_params in
   best_model <- build_cnn_lstm_model add_layers num_filters kernel_size
                   lstm_units dropout_rate ;;
   io_ret (fit best_model))%io.

Definition evaluate_model {M X} accuracy_score confusion_matrix
    classification_report roc_auc_score : _ -> list X -> _ -> io M unit :=
  evaluate_model_network accuracy_score confusion_matrix
    classification_report roc_auc_score pdf_filename.

(** The input file, set at the bottom of the script. *)
Definition filename : string := "../data/afdb_data.csv".

(** [main]: load, prepare, search, build and fit the best model, evaluate.
    The fitted network answers [predict]. *)
Definition main {M} (read_csv : string -> result DataFrame)
    scale resample split add_layers
    (trials : list (Z * Z * Z * float)) (best_params : Z * Z * Z * float)
    (predict : estimator -> list (list (list float)) -> list (list float))
    accuracy_score confusion_matrix classification_report roc_auc_score
  : io M unit :=
  (s <- io_lift (df ← read_csv filename;
                 prepare_data scale resample split df) ;;
   best_model <- main_training add_layers trials best_params ;;
   evaluate_model accuracy_score confusion_matrix classification_report
     roc_auc_score (predict best_model) (x_test s) (y_test s))%io.
End CNN_LSTM_Hybrid.

Module GradientBoost.
Definition quality_threshold : float := SQ_03.

Definition prepare_data scale resample split :=
  prepare_data_with scale resample _ _ split
    quality_threshold features8 num_AFIB_annotations
    (fun x => x) (fun y => y).

Definition model_path : string := "../models/XGBoost_model.pkl".
Definition pdf_filename : string :=
  "../reports/model_evaluation_Gradient_Boosting.pdf".

(** The classifier is constructed and pickled, and only then handed to
    the search.  [random_search] is
    [RandomizedSearchCV(model, ...).fit(x, y).best_estimator_]: it fits
    clones of [model] and may raise. *)
Definition build_gradient_boosting_model {M}
    (random_search : estimator -> result estimator) : io M estimator :=
  let model := MkEstimator "XGBClassifier" [] 0 in
  (write_file model_path (SavedModel model) ;;
   io_lift (random_search model))%io.

Definition evaluate_model {M X} accuracy_score confusion_matrix
    classification_report roc_auc_score
  : _ -> _ -> list X -> _ -> io M unit :=
  evaluate_model_boosted accuracy_score confusion_matrix
    classification_report roc_auc_score pdf_filename.

(** The input file, set at the bottom of the script. *)
Definition filename : string := "../data/afdb_data.csv".

(** [main]: load, prepare, build, evaluate.  [read_csv] is [pd.read_csv];
    the search is handed the train arrays, and the estimator it returns
    answers [predict_proba] and [predict]. *)
Definition main {M} (read_csv : string -> result DataFrame)
    scale resample split
    (random_search : list (list float) -> list Z -> estimator -> result estimator)
    (predict_proba : estimator -> list (list float) -> list (list float))
    (predict : estimator -> list (list float) -> list Z)
    accuracy_score confusion_matrix classification_report roc_auc_score
  : io M unit :=
  (s <- io_lift (df ← read_csv filename;
                 prepare_data scale resample split df) ;;
   model <- build_gradient_boosting_model
              (random_search (x_train s) (y_train s)) ;;
   evaluate_model accuracy_score confusion_matrix classification_report
     roc_auc_score (predict_proba model) (predict model)
     (x_test s) (y_test s))%io.
End GradientBoost.

Module resnet_Optimized.
Definition quality_threshold : float := SQ_05.

Definition prepare_data scale resample split :=
  prepare_data_with scale resample _ _ split
    quality_threshold features4 has_AFIB
    reshape_nm1 (fun y => to_categorical y (Some 2%nat)).

Definition pdf_filename : string := "../reports/model_evaluation_ResNet_optm.pdf".

Definition evaluate_model {M X} accuracy_score confusion_matrix
    classification_report roc_auc_score : _ -> list X -> _ -> io M unit :=
  evaluate_model_network accuracy_score confusion_matrix
    classification_report roc_auc_score pdf_filename.

(** The input file, set at the bottom of the script. *)
Definition filename : string := "../data/afdb_data.csv".

(** One trial of the search: the file is loaded and prepared again, then
    the network is built, fitted and scored ([fit_and_score], Keras's
    work); nothing is written. *)
Definition objective {M} (read_csv : string -> result DataFrame)
    scale resample split
    (fit_and_score : Split (list (list float)) (list Z) -> result M)
  : result M :=
  s ← (df ← read_csv filename; prepare_data scale resample split df);
  fit_and_score s.

(** [study.optimize(objective, n_trials=50)]: the trials in turn; an
    exception of a trial ends the search. *)
Definition optimize {M} (n_trials : nat) (trial : nat -> result M)
  : result (list M) :=
  mapM trial (seq 0 n_trials).

(** [main]: the search, then the file is loaded and prepared once more,
    the best network is built and fitted ([fit_best]), and evaluated. *)
Definition main {M} (read_csv : string -> result DataFrame)
    scale resample split
    (fit_and_score : nat -> Split (list (list float)) (list Z) -> result M)
    (fit_best : list M -> Split (list (list float)) (list Z) ->
                result (list (list (list float)) -> list (list float)))
    accuracy_score confusion_matrix classification_report roc_auc_score
  : io M unit :=
  (values <- io_lift (optimize 50 (fun t =>
                objective read_csv scale resample split (fit_and_score t))) ;;
   s <- io_lift (df ← read_csv filename;
                 prepare_data scale resample split df) ;;
   predict <- io_lift (fit_best values s) ;;
   evaluate_model accuracy_score confusion_matrix classification_report
     roc_auc_score predict (x_test s) (y_test s))%io.
End resnet_Optimized.

(** ** Sample inputs used in the examples *)

Definition mk_row (sdnn rmssd cvar quality : float) (label : Z) : FeatureRow :=
  {| hrv_sdnn := sdnn; hrv_rmssd := rmssd; hrv_mean := 800; cv := cvar;
     heart_rate_std := 5; heart_rate_mean := 70; sd1 := 20; sd2 := 40;
     signal_quality := quality; num_AFIB_annotations := label;
     has_AFIB := label |}.

(** Five records: one good, one with too large an SDNN, one with a missing
    RMSSD, one of quality exactly [0.3], one with too large a CV. *)
Definition sample_table : DataFrame :=
  [(0, mk_row 120 80 0.125 0.875 0); (1, mk_row 501 80 0.125 0.875 1);
   (2, mk_row 120 nan 0.125 0.875 0); (3, mk_row 90 60 0.25 SQ_03 1);
   (4, mk_row 120 80 0.75 0.875 0)]%nat.

(** A table in which every record fails a filter. *)
Definition rejected_table : DataFrame :=
  [(0, mk_row 600 80 0.125 0.875 0); (1, mk_row 120 80 0.125 0.125 1)]%nat.

(** A machine with no files on which every path can be written, and one
    on which the report directory of the boosted script is missing. *)
Definition fresh_world : World Q := MkWorld ∅ ∅.
Definition no_reports_dir : World Q := MkWorld ∅ {[GradientBoost.pdf_filename]}.

(** Stand-ins for the numeric libraries, for running the examples: a
    scaler that changes nothing, a generator that always shuffles by
    reversing, and draws that walk through the minority rows. *)
Definition demo_standardize (x : list (list float)) : list (list float) := x.
Definition demo_draw (seed : Z) (j : nat) : nat * nat * float := (j, j, 0.5).
Definition demo_seed (seed : Z) : unit := tt.
Definition demo_permutation (st : unit) (n : nat) : list nat := reverse (seq 0 n).

(** A search that refits a clone with the parameters it found. *)
Definition demo_search (model : estimator) : result estimator :=
  Return (fit (MkEstimator (est_class model) [("max_depth", PyInt 4)] 0)).

(** The three library calls of [prepare_data], from the models above and
    the stand-ins. *)
Definition demo_scale := fit_transform demo_standardize.
Definition demo_resample := fit_resample 5 demo_draw 42.
Definition demo_split {X Y} (x : list X) (y : list Y) : result (Split X Y) :=
  train_test_split unit demo_seed demo_permutation x y 1 5 (Some 42%Z) tt.

(** The exception of the scaler on a table with no rows. *)
Definition empty_table_error : exn :=
  Exn "ValueError"
    "Found array with 0 sample(s) while a minimum of 1 is required by StandardScaler".

(** Two rows of features, for models whose answer does not depend on
    them. *)
Definition two_rows : list (list float) := [[120; 80]; [90; 60]].

(** A test set with the single class 1, as a vector and one-hot. *)
Definition single_class_labels : list Z := [1; 1]%Z.
Definition single_class_onehot : list (list Z) := [[0; 1]; [0; 1]]%Z.
Definition single_class_proba : list (list float) :=
  [[0.25; 0.75]; [0.125; 0.875]].

(** A balanced table of six rows. *)
Definition demo_x : list (list float) := [[1]; [2]; [3]; [4]; [5]; [6]].
Definition demo_y : list Z := [0; 1; 0; 1; 0; 1]%Z.

(** Nine rows of class 0 and six of class 1. *)
Definition imbalanced_x : list (list float) :=
  [[1]; [2]; [3]; [4]; [5]; [6]; [7]; [8]; [9];
   [20]; [22]; [24]; [26]; [28]; [30]].
Definition imbalanced_y : list Z :=
  [0; 0; 0; 0; 0; 0; 0; 0; 0; 1; 1; 1; 1; 1; 1]%Z.

(** Two test rows of a network whose softmax output has saturated: the
    probabilities of class 1 differ, those of class 0 are both rounded to
    one. *)
Definition saturated_onehot : list (list Z) := [[1; 0]; [0; 1]]%Z.
Definition saturated_proba : list (list float) :=
  [[1 - 0x1p-70; 0x1p-70]; [1 - 0x1p-69; 0x1p-69]].

(** Two test rows of a network that has diverged. *)
Definition diverged_proba : list (list float) := [[nan; nan]; [nan; nan]].

(** Four test rows whose two probabilities add up to one. *)
Definition mixed_labels : list Z := [0; 1; 1; 0]%Z.

(** A report as scikit-learn returns it, before the labels are made a
    column. *)
Definition sample_report : Frame Q :=
  MkFrame ["precision"; "recall"; "f1-score"; "support"]
    [("0", [CellNum (2 # 3); CellNum 1; CellNum (4 # 5); CellNum 2]);
     ("1", [CellNum 1; CellNum (1 # 2); CellNum (2 # 3); CellNum 2]);
     ("accuracy", [CellNum (3 # 4); CellNum (3 # 4); CellNum (3 # 4);
                   CellNum (3 # 4)])]%Q.

(** Ten records that pass every filter, the classes alternating. *)
Definition good_table : DataFrame :=
  map (fun i => (i, mk_row 120 80 0.125 0.875 (Z.of_nat (i mod 2)))) (seq 0 10).

(** Stand-ins for reading the file and for the fitted models: a reader
    that knows one file, a search that fits, and models that give every
    row the same answer. *)
Definition demo_read_csv (table : DataFrame) (path : string) : result DataFrame :=
  if String.eqb path "../data/afdb_data.csv" then Return table
  else Raise (Exn "FileNotFoundError" path).
Definition demo_random_search (x : list (list float)) (y : list Z)
    (model : estimator) : result estimator :=
  demo_search model.
Definition demo_predict_proba {X} (model : estimator) (x : list X)
  : list (list float) :=
  map (fun _ => [0.25; 0.75]) x.
Definition demo_predict {X} (model : estimator) (x : list X) : list Z :=
  map (fun _ => 1%Z) x.

(** ** What a command may touch *)

(** A command that, however it ends, leaves every file outside [paths] as
    it was, and leaves alone what can be written. *)
Definition touches_only {M A} (paths : list string) (c : io M A) : Prop :=
  forall w r w',
    c w = (r, w') ->
    unwritable w' = unwritable w
    /\ forall p, p ∉ paths -> files w' !! p = files w !! p.

(** The machine after a report has been rendered on [w]: the PDF holds
    the report, the two images are gone, all else is as in [w]. *)
Definition report_rendered {M} (pdf_filename : string) (accuracy roc_auc : M)
    (conf_matrix : list (list nat)) (class_report_df : list (string * list M))
    (w : World M) : World M :=
  MkWorld (<[pdf_filename :=
               PdfReport accuracy roc_auc class_report_df conf_matrix]>
             (delete confusion_matrix_png
                (delete classification_report_png (files w))))
          (unwritable w).

(** * Properties *)

(** ** Lemmas on mask selection *)

Section MaskLemmas.
Lemma getitem_mask_le f c df :
  getitem_mask df (series_le (column f df) c)
  = List.filter (fun ir => f ir.2 <=? c) df.
Proof.
  induction df as [|[i r] df IH]; simpl; [reflexivity|].
  rewrite IH. reflexivity.
Qed.

Lemma getitem_mask_ge f c df :
  getitem_mask df (series_ge (column f df) c)
  = List.filter (fun ir => c <=? f ir.2) df.
Proof.
  induction df as [|[i r] df IH]; simpl; [reflexivity|].
  rewrite IH. reflexivity.
Qed.

Lemma run_step_filter sq_min s df :
  run_step sq_min s df = List.filter (fun ir => step_ok sq_min s ir.2) df.
Proof.
  destruct s; simpl;
    [apply getitem_mask_le | apply getitem_mask_le
    | apply getitem_mask_le | apply getitem_mask_ge].
Qed.

Lemma filter_filter_and {A} (p q : A -> bool) l :
  List.filter q (List.filter p l) = List.filter (fun x => p x && q x) l.
Proof.
  induction l as [|x l IH]; simpl; [reflexivity|].
  destruct (p x); simpl; [destruct (q x)|]; rewrite IH; reflexivity.
Qed.

Lemma quality_filters_filter sq_min df :
  quality_filters sq_min df = rows_passing sq_min df.
Proof.
  unfold quality_filters, rows_passing, filter_sdnn, filter_rmssd,
    filter_cv, filter_quality.
  rewrite !getitem_mask_le, getitem_mask_ge, !filter_filter_and.
  apply List.filter_ext. intros [i r]. unfold row_ok, sdnn_ok, rmssd_ok,
    cv_ok, quality_ok. simpl. rewrite !andb_assoc. reflexivity.
Qed.

Lemma run_steps_source_order sq_min df :
  run_steps sq_min source_order df = quality_filters sq_min df.
Proof. reflexivity. Qed.
End MaskLemmas.

Section FilterOrder.
Variable sq_min : float.

Lemma run_steps_filter ss df :
  run_steps sq_min ss df
  = List.filter (fun ir => forallb (fun s => step_ok sq_min s ir.2) ss) df.
Proof.
  revert df. induction ss as [|s ss IH]; intros df.
  - simpl. induction df as [|ir df IHdf]; simpl; congruence.
  - unfold run_steps in *. simpl. rewrite IH, run_step_filter.
    apply filter_filter_and.
Qed.

Lemma forallb_Permutation {A} (p : A -> bool) l l' :
  l ≡ₚ l' -> forallb p l = forallb p l'.
Proof.
  induction 1 as [|x l l' _ IH|x y l|l l' l'' _ IH1 _ IH2]; simpl.
  - reflexivity.
  - rewrite IH. reflexivity.
  - destruct (p x), (p y); reflexivity.
  - congruence.
Qed.
End FilterOrder.

#[warnings="-inexact-float"] Example SQ_03_is_the_literal : SQ_03 = 0.3.
Proof. reflexivity. Qed.

Example area_under_roc_samples :
  (area_under_roc [0; 0; 1; 1]%Z [0.125; 0.25; 0.5; 0.75]%float == 1)%Q
  /\ (area_under_roc [1; 1; 0; 0]%Z [0.125; 0.25; 0.5; 0.75]%float == 0)%Q
  /\ (area_under_roc [0; 1; 0; 1]%Z [0.5; 0.5; 0.5; 0.5]%float == 1 # 2)%Q
  /\ (area_under_roc [0; 0; 1; 1]%Z [0.125; 0.5; 0.25; 0.75]%float == 3 # 4)%Q.
Proof. repeat split. Qed.

Example quality_filters_sample :
  map fst (quality_filters SQ_03 sample_table) = [0; 3]%nat
  /\ map fst (quality_filters SQ_05 sample_table) = [0]%nat.
Proof. split; reflexivity. Qed.

Example split_sample :
  demo_split demo_x demo_y
  = Return (MkSplit [[4]; [3]; [2]; [1]] [[6]; [5]] [1; 0; 1; 0]%Z [1; 0]%Z).
Proof. reflexivity. Qed.

Example fit_resample_sample :
  demo_resample imbalanced_x imbalanced_y
  = Return (imbalanced_x ++ [[21]; [23]; [22]], (imbalanced_y ++ [1; 1; 1])%Z).
Proof. reflexivity. Qed.

Example prepare_data_sample :
  GradientBoost.prepare_data demo_scale demo_resample demo_split sample_table
  = Return (MkSplit [[120; 80; 800; 0.125; 5; 70; 20; 40]]
                    [[90; 60; 800; 0.25; 5; 70; 20; 40]] [0%Z] [1%Z]).
Proof. reflexivity. Qed.

(** C1. After the four filter lines of [prepare_data], every remaining
    record has [hrv_sdnn <= 500], [hrv_rmssd <= 500], [cv <= 0.5] and
    [signal_quality >= threshold], for any threshold, and so for the [0.3]
    of the recurrent and boosted scripts and the [0.5] of the residual
    script. *)
Theorem filtered_rows_within_thresholds :
  forall (sq_min : float) (df : DataFrame),
    let within (t : float) (ir : nat * FeatureRow) :=
      (hrv_sdnn ir.2 <=? 500) = true /\ (hrv_rmssd ir.2 <=? 500) = true
      /\ (cv ir.2 <=? 0.5) = true /\ (t <=? signal_quality ir.2) = true in
    Forall (within sq_min) (quality_filters sq_min df)
    /\ Forall (within CNN_LSTM_Hybrid.quality_threshold)
         (quality_filters CNN_LSTM_Hybrid.quality_threshold df)
    /\ Forall (within GradientBoost.quality_threshold)
         (quality_filters GradientBoost.quality_threshold df)
    /\ Forall (within resnet_Optimized.quality_threshold)
         (quality_filters resnet_Optimized.quality_threshold df)
    /\ CNN_LSTM_Hybrid.quality_threshold = SQ_03
    /\ GradientBoost.quality_threshold = SQ_03
    /\ resnet_Optimized.quality_threshold = SQ_05.
Proof.
  intros sq_min df within.
  assert (H : forall t, Forall (within t) (quality_filters t df)).
  { intros t. rewrite quality_filters_filter. unfold rows_passing.
    apply List.Forall_forall. intros ir Hin.
    apply List.filter_In in Hin. destruct Hin as [_ Hok].
    unfold row_ok, sdnn_ok, rmssd_ok, cv_ok, quality_ok in Hok.
    apply andb_prop in Hok as [Hok H4]. apply andb_prop in Hok as [Hok H3].
    apply andb_prop in Hok as [H1 H2]. unfold within. auto. }
  repeat split; try apply H; reflexivity.
Qed.

(** C8. The four filter lines run in any order give the table that the
    order of the source gives. *)
Theorem filter_order_irrelevant :
  forall (sq_min : float) (ss : list filter_step) (df : DataFrame),
    ss ≡ₚ source_order ->
    run_steps sq_min ss df = quality_filters sq_min df.
Proof.
  intros sq_min ss df Hperm.
  rewrite <- run_steps_source_order, !run_steps_filter.
  apply List.filter_ext. intros ir. apply forallb_Permutation, Hperm.
Qed.

Lemma filter_order_irrelevant_witness :
  [StepQuality; StepCv; StepRmssd; StepSdnn] ≡ₚ source_order
  /\ run_steps SQ_03 [StepQuality; StepCv; StepRmssd; StepSdnn] sample_table
     = quality_filters SQ_03 sample_table.
Proof.
  assert (H : [StepQuality; StepCv; StepRmssd; StepSdnn] ≡ₚ source_order).
  { change ([StepQuality; StepCv; StepRmssd; StepSdnn])
      with (reverse source_order). apply reverse_Permutation. }
  split; [exact H | apply (filter_order_irrelevant SQ_03 _ sample_table H)].
Defined.

(** C10. The filter lines return exactly the records of the input that
    pass all four predicates: the result is the input with the failing
    records struck out, so labels and cells are those of the input, the
    order is the input's, and every passing record is still there. *)
Theorem quality_filters_exact :
  forall (sq_min : float) (df : DataFrame),
    quality_filters sq_min df = rows_passing sq_min df
    /\ quality_filters sq_min df `sublist_of` df
    /\ (forall ir, ir ∈ quality_filters sq_min df
                   <-> ir ∈ df /\ row_ok sq_min ir.2 = true).
Proof.
  intros sq_min df. rewrite quality_filters_filter. unfold rows_passing.
  split; [reflexivity|]. split.
  - induction df as [|ir df IH]; simpl; [constructor|].
    destruct (row_ok sq_min ir.2); [by apply sublist_skip | by apply sublist_cons].
  - intros ir. rewrite !list_elem_of_In, List.filter_In. reflexivity.
Qed.

(** ** The report files *)

Section IoLemmas.
Context {M : Type}.

Lemma io_bind_return {A B} (c : io M A) (k : A -> io M B) w b w' :
  io_bind c k w = (Return b, w') ->
  exists a w1, c w = (Return a, w1) /\ k a w1 = (Return b, w').
Proof.
  unfold io_bind. destruct (c w) as [[a|e] w1]; intros H.
  - exists a, w1. split; [reflexivity | exact H].
  - discriminate H.
Qed.

Lemma io_bind_step {A B} (c : io M A) (k : A -> io M B) w a w' :
  c w = (Return a, w') -> io_bind c k w = k a w'.
Proof. unfold io_bind. intros ->. reflexivity. Qed.

Lemma write_file_ok path (a : artifact M) w :
  path ∉ unwritable w ->
  write_file path a w
  = (Return tt, MkWorld (<[path := a]> (files w)) (unwritable w)).
Proof. intros H. unfold write_file. rewrite decide_False by exact H. reflexivity. Qed.

Lemma os_remove_return path (w : World M) u w' :
  os_remove path w = (Return u, w') ->
  w' = MkWorld (delete path (files w)) (unwritable w).
Proof.
  unfold os_remove. destruct (files w !! path); intros H; inversion H.
  reflexivity.
Qed.

Lemma delete_images_return (w : World M) u w' :
  delete_images w = (Return u, w') ->
  files w' !! classification_report_png = None
  /\ files w' !! confusion_matrix_png = None.
Proof.
  unfold delete_images. intros H.
  apply io_bind_return in H as (u1 & w1 & H1 & H2).
  apply os_remove_return in H1. apply os_remove_return in H2.
  subst w' w1. simpl. split.
  - rewrite lookup_delete_ne by discriminate. apply lookup_delete_eq.
  - apply lookup_delete_eq.
Qed.
End IoLemmas.

(** C2, as stated, fails: when [c.save()] cannot write the PDF,
    [create_pdf] raises, [delete_images] is never reached, and both image
    files are still there when the call is left. *)
Lemma images_remain_when_pdf_fails :
  exists w',
    render_report GradientBoost.pdf_filename (1 # 2) (3 # 4) [[1; 1]; [0; 2]]%nat
      [("0", [1; 1 # 2; 2 # 3; 2]%Q)] no_reports_dir
    = (Raise (Exn "OSError" GradientBoost.pdf_filename), w')
    /\ is_Some (files w' !! classification_report_png)
    /\ is_Some (files w' !! confusion_matrix_png).
Proof.
  eexists. split; [vm_compute; reflexivity|].
  split; vm_compute; eauto.
Qed.

(** C2, amended.  On the path on which the image and the PDF are written
    without an exception, [delete_images] runs: whenever the three
    statements return, neither image file exists.  There is no cleanup on
    the other path: when the two images can be written and the PDF cannot,
    the call is left by the [OSError] of [c.save()] with both image files
    in place. *)
Theorem images_removed_only_on_success :
  forall (M : Type) (pdf_filename : string) (accuracy roc_auc : M)
         (conf_matrix : list (list nat))
         (class_report_df : list (string * list M)) (w w' : World M)
         (r : result unit),
    render_report pdf_filename accuracy roc_auc conf_matrix class_report_df w
    = (r, w') ->
    (r = Return tt ->
     files w' !! classification_report_png = None
     /\ files w' !! confusion_matrix_png = None)
    /\ (classification_report_png ∉ unwritable w ->
        confusion_matrix_png ∉ unwritable w ->
        pdf_filename ∈ unwritable w ->
        r = Raise (Exn "OSError" pdf_filename)
        /\ files w' !! classification_report_png
           = Some (TableImage class_report_df)
        /\ files w' !! confusion_matrix_png = Some (HeatmapImage conf_matrix)).
Proof.
  intros M pdf acc auc cm rep w w' r H. split.
  - intros ->. unfold render_report in H.
    apply io_bind_return in H as (u1 & w1 & _ & H).
    apply io_bind_return in H as (u2 & w2 & _ & H).
    eapply delete_images_return, H.
  - intros Hcr Hcm Hpdf. revert H.
    unfold render_report, create_classification_report_image, create_pdf.
    erewrite io_bind_step by (apply write_file_ok, Hcr).
    set (w1 := MkWorld _ _).
    assert (Hrun : io_bind (read_file classification_report_png)
                     (fun table =>
                        io_bind (write_file confusion_matrix_png
                                   (HeatmapImage cm))
                          (fun _ =>
                             io_bind (read_file confusion_matrix_png)
                               (fun heatmap =>
                                  write_file pdf
                                    (PdfReport acc auc
                                       match table with
                                       | TableImage cells => cells
                                       | _ => []
                                       end
                                       match heatmap with
                                       | HeatmapImage cm0 => cm0
                                       | _ => []
                                       end)))) w1
                   = (Raise (Exn "OSError" pdf),
                      MkWorld (<[confusion_matrix_png := HeatmapImage cm]>
                                 (files w1)) (unwritable w))).
    { erewrite io_bind_step
        by (unfold read_file; simpl; rewrite lookup_insert_eq; reflexivity).
      erewrite io_bind_step by (apply write_file_ok; exact Hcm).
      erewrite io_bind_step
        by (unfold read_file; simpl; rewrite lookup_insert_eq; reflexivity).
      unfold write_file. simpl. rewrite decide_True by exact Hpdf.
      reflexivity. }
    unfold io_bind at 1. rewrite Hrun. intros H. inversion H. subst r w'.
    split; [reflexivity|]. simpl. split.
    + rewrite lookup_insert_ne by discriminate. apply lookup_insert_eq.
    + apply lookup_insert_eq.
Qed.

Lemma images_removed_only_on_success_witness :
  exists w',
    render_report GradientBoost.pdf_filename (1 # 2) (3 # 4) [[1; 1]; [0; 2]]%nat
      [("0", [1; 1 # 2; 2 # 3; 2]%Q)] fresh_world = (Return tt, w')
    /\ files w' !! classification_report_png = None
    /\ files w' !! confusion_matrix_png = None
    /\ is_Some (files w' !! GradientBoost.pdf_filename).
Proof.
  eexists. split; [vm_compute; reflexivity|].
  split; [|split].
  - eapply (images_removed_only_on_success Q GradientBoost.pdf_filename
              (1 # 2) (3 # 4) [[1; 1]; [0; 2]]%nat
              [("0", [1; 1 # 2; 2 # 3; 2]%Q)] fresh_world);
      [vm_compute; reflexivity | reflexivity].
  - eapply (images_removed_only_on_success Q GradientBoost.pdf_filename
              (1 # 2) (3 # 4) [[1; 1]; [0; 2]]%nat
              [("0", [1; 1 # 2; 2 # 3; 2]%Q)] fresh_world);
      [vm_compute; reflexivity | reflexivity].
  - vm_compute. eauto.
Defined.

(** ** The model file *)

Section RejectedLayers.
Context {M : Type}.
Variable input_shape : list Z.

(** [Flatten] returns two axes and the recurrent layer added next takes
    three, so the layers are refused whatever the parameters; with an
    [input_shape] of other than two entries the first convolution is
    refused already. *)
Lemma add_layers_rejected nf ks lu dr :
  exists e,
    CNN_LSTM_Hybrid.add_layers input_shape nf ks lu dr = Raise e
    /\ exn_class e = "ValueError".
Proof.
  unfold CNN_LSTM_Hybrid.add_layers, CNN_LSTM_Hybrid.layers.
  cbn [keras.add keras.call].
  destruct (S (length input_shape) =? 3)%nat;
    eexists; (split; [reflexivity | reflexivity]).
Qed.

Lemma build_cnn_lstm_model_rejected nf ks lu dr :
  exists e,
    exn_class e = "ValueError"
    /\ forall w : World M,
         CNN_LSTM_Hybrid.build_cnn_lstm_model
           (CNN_LSTM_Hybrid.add_layers input_shape) nf ks lu dr w
         = (Raise e, w).
Proof.
  destruct (add_layers_rejected nf ks lu dr) as (e & He & Hcls).
  exists e. split; [exact Hcls|]. intros w.
  unfold CNN_LSTM_Hybrid.build_cnn_lstm_model, io_bind, io_lift.
  rewrite He. reflexivity.
Qed.

Lemma objective_rejected trial :
  exists e,
    exn_class e = "ValueError"
    /\ forall w : World M,
         CNN_LSTM_Hybrid.objective (CNN_LSTM_Hybrid.add_layers input_shape)
           trial w
         = (Raise e, w).
Proof.
  destruct trial as [[[nf ks] lu] dr].
  destruct (build_cnn_lstm_model_rejected nf ks lu dr) as (e & Hcls & Hb).
  exists e. split; [exact Hcls|]. intros w.
  unfold CNN_LSTM_Hybrid.objective, io_bind. rewrite Hb. reflexivity.
Qed.

Lemma main_training_rejected trials best_params :
  exists e,
    exn_class e = "ValueError"
    /\ forall w : World M,
         CNN_LSTM_Hybrid.main_training
           (CNN_LSTM_Hybrid.add_layers input_shape) trials best_params w
         = (Raise e, w).
Proof.
  destruct trials as [|t trials].
  - destruct best_params as [[[nf ks] lu] dr].
    destruct (build_cnn_lstm_model_rejected nf ks lu dr) as (e & Hcls & Hb).
    exists e. split; [exact Hcls|]. intros w.
    unfold CNN_LSTM_Hybrid.main_training, io_bind. simpl.
    unfold io_ret. rewrite Hb. reflexivity.
  - destruct (objective_rejected t) as (e & Hcls & Ho).
    exists e. split; [exact Hcls|]. intros w.
    unfold CNN_LSTM_Hybrid.main_training, io_bind. simpl.
    unfold io_bind. rewrite Ho. reflexivity.
Qed.
End RejectedLayers.

(** C9.  The boosted script does what the claim says: on a path that can
    be written, [build_gradient_boosting_model] pickles the classifier
    with no completed fit before it calls the search, whatever the search
    then does.  The recurrent script does not: [build_cnn_lstm_model]
    adds a recurrent layer right after [Flatten], Keras refuses it with a
    [ValueError], and the [model.save] two lines before the [return] is
    never reached.  For every input shape, every set of parameters and
    every machine the builder is left by that exception and the machine
    is as it was: no model file has been written. *)
Theorem recurrent_builder_stops_before_save :
  forall (M : Type) (input_shape : list Z) (nf ks lu : Z) (dr : float)
         (random_search : estimator -> result estimator) (w : World M),
    (exists e,
        CNN_LSTM_Hybrid.build_cnn_lstm_model
          (CNN_LSTM_Hybrid.add_layers input_shape) nf ks lu dr w
        = (Raise e, w)
        /\ exn_class e = "ValueError")
    /\ (GradientBoost.model_path ∉ unwritable w ->
        exists saved w',
          GradientBoost.build_gradient_boosting_model random_search w
          = (random_search saved, w')
          /\ files w' !! GradientBoost.model_path = Some (SavedModel saved)
          /\ est_fits saved = 0%nat).
Proof.
  intros M input_shape nf ks lu dr random_search w. split.
  - destruct (build_cnn_lstm_model_rejected (M:=M) input_shape nf ks lu dr)
      as (e & Hcls & Hb).
    exists e. split; [apply Hb | exact Hcls].
  - intros Hg. eexists. eexists.
    unfold GradientBoost.build_gradient_boosting_model.
    erewrite io_bind_step by (apply write_file_ok, Hg).
    split; [reflexivity|]. simpl. split; [apply lookup_insert_eq|].
    reflexivity.
Qed.

(** The first trial of the search as the script runs it, on eight feature
    columns: no file exists afterwards; the boosted builder on the same
    machine leaves its pickle. *)
Lemma recurrent_builder_stops_before_save_witness :
  (exists e,
      CNN_LSTM_Hybrid.build_cnn_lstm_model
        (CNN_LSTM_Hybrid.add_layers [8; 1]%Z) 32 1 50 0.25 fresh_world
      = (Raise e, fresh_world)
      /\ exn_class e = "ValueError")
  /\ (exists saved w',
        GradientBoost.build_gradient_boosting_model demo_search fresh_world
        = (demo_search saved, w')
        /\ files w' !! GradientBoost.model_path = Some (SavedModel saved)
        /\ est_fits saved = 0%nat).
Proof.
  destruct (recurrent_builder_stops_before_save Q [8; 1]%Z 32 1 50 0.25
              demo_search fresh_world) as (Hr & Hb).
  split; [exact Hr|]. apply Hb. simpl. apply not_elem_of_empty.
Defined.

Example recurrent_builder_run :
  CNN_LSTM_Hybrid.build_cnn_lstm_model
    (CNN_LSTM_Hybrid.add_layers [8; 1]%Z) 32 1 50 0.25 fresh_world
  = (Raise (keras.incompatible "lstm"), fresh_world).
Proof. reflexivity. Qed.

(** A run of the boosted builder: the pickle holds the classifier with no
    fit, the builder returns the fitted estimator of the search. *)
Example boosted_builder_run :
  exists fitted w',
    GradientBoost.build_gradient_boosting_model demo_search fresh_world
    = (Return fitted, w')
    /\ est_fits fitted = 1%nat
    /\ files w' !! GradientBoost.model_path
       = Some (SavedModel (MkEstimator "XGBClassifier" [] 0)).
Proof. do 2 eexists. split; [vm_compute; reflexivity|]. split; reflexivity. Qed.

(** ** A test set with one class *)

Lemma sklearn_single_class y s :
  sklearn.check_array s = Return tt ->
  only_one_class y = true ->
  sklearn.roc_auc_score (Arr1 y) (Arr1 s)
  = Raise (Exn "ValueError"
             "Only one class present in y_true. ROC AUC score is not defined in that case.").
Proof.
  intros Hs H. unfold sklearn.roc_auc_score. rewrite Hs.
  cbn [mbind result_bind]. unfold sklearn.binary_roc_auc_score.
  rewrite H. reflexivity.
Qed.

(** C3, as stated, fails: on a test set with the single class 1 the
    boosted [evaluate_model] is left by the [ValueError] that
    scikit-learn's [roc_auc_score] raises; no [MetricUndefinedError] is
    raised, and the scripts define no such class. *)
Lemma single_class_error_is_not_metric_undefined :
  GradientBoost.evaluate_model sklearn.accuracy_score sklearn.confusion_matrix
    sklearn.classification_report sklearn.roc_auc_score
    (fun _ => single_class_proba) (fun _ => single_class_labels)
    two_rows single_class_labels fresh_world
  = (Raise (Exn "ValueError"
              "Only one class present in y_true. ROC AUC score is not defined in that case."),
     fresh_world)
  /\ ~ raises
        (GradientBoost.evaluate_model sklearn.accuracy_score
           sklearn.confusion_matrix sklearn.classification_report
           sklearn.roc_auc_score
           (fun _ => single_class_proba) (fun _ => single_class_labels)
           two_rows single_class_labels fresh_world).1
        "MetricUndefinedError".
Proof.
  assert (H : GradientBoost.evaluate_model sklearn.accuracy_score
                sklearn.confusion_matrix sklearn.classification_report
                sklearn.roc_auc_score
                (fun _ => single_class_proba) (fun _ => single_class_labels)
                two_rows single_class_labels fresh_world
              = (Raise (Exn "ValueError"
                   "Only one class present in y_true. ROC AUC score is not defined in that case."),
                 fresh_world)) by (vm_compute; reflexivity).
  split; [exact H|]. rewrite H. simpl.
  intros (e & He & Hcls). inversion He. subst e. discriminate Hcls.
Qed.

(** C3, amended.  The evaluator checks nothing and raises nothing of its
    own about the classes of the test set.  Whatever [roc_auc_score] does
    with the labels and scores it is given is the outcome: an exception it
    raises leaves [evaluate_model] unchanged, before any file is written,
    and a value it returns goes into the report.  This holds for every
    test set, those with a single class among them, in the boosted form
    of the call and in the form of the two network scripts. *)
Theorem roc_auc_outcome_passed_through :
  forall (M X : Type) (accuracy_score : list Z -> list Z -> M)
         (confusion_matrix : list Z -> list Z -> list (list nat))
         (classification_report : list Z -> list Z -> list (string * list M))
         (roc_auc_score : ndarray Z -> ndarray float -> result M)
         (pdf_filename : string)
         (predict_proba : list X -> list (list float))
         (predict : list X -> list Z)
         (x_test : list X) (y_test : list Z) (y_test_onehot : list (list Z))
         (w : World M),
    let boosted :=
      evaluate_model_boosted accuracy_score confusion_matrix
        classification_report roc_auc_score pdf_filename
        predict_proba predict x_test y_test in
    let boosted_call :=
      col ← column_of 1 (predict_proba x_test);
      roc_auc_score (Arr1 y_test) (Arr1 col) in
    let network :=
      evaluate_model_network accuracy_score confusion_matrix
        classification_report roc_auc_score pdf_filename
        predict_proba x_test y_test_onehot in
    let network_call :=
      roc_auc_score (Arr2 y_test_onehot) (Arr2 (predict_proba x_test)) in
    let y_pred := map (fun row => Z.of_nat (argmax row)) (predict_proba x_test) in
    let y_true := map (fun row => Z.of_nat (argmaxZ row)) y_test_onehot in
    (forall e, boosted_call = Raise e -> boosted w = (Raise e, w))
    /\ (forall v, boosted_call = Return v ->
          boosted w
          = render_report pdf_filename
              (accuracy_score y_test (predict x_test)) v
              (confusion_matrix y_test (predict x_test))
              (classification_report y_test (predict x_test)) w)
    /\ (forall e, network_call = Raise e -> network w = (Raise e, w))
    /\ (forall v, network_call = Return v ->
          network w
          = render_report pdf_filename (accuracy_score y_true y_pred) v
              (confusion_matrix y_true y_pred)
              (classification_report y_true y_pred) w).
Proof.
  intros. subst boosted boosted_call network network_call y_pred y_true.
  unfold evaluate_model_boosted, evaluate_model_network, io_bind, io_lift.
  repeat split; intros r Hr; rewrite Hr; reflexivity.
Qed.

Lemma roc_auc_outcome_passed_through_witness :
  GradientBoost.evaluate_model sklearn.accuracy_score sklearn.confusion_matrix
    sklearn.classification_report sklearn.roc_auc_score
    (fun _ => single_class_proba) (fun _ => single_class_labels)
    two_rows single_class_labels fresh_world
  = (Raise (Exn "ValueError"
              "Only one class present in y_true. ROC AUC score is not defined in that case."),
     fresh_world).
Proof.
  destruct (roc_auc_outcome_passed_through Q (list float) sklearn.accuracy_score
              sklearn.confusion_matrix sklearn.classification_report
              sklearn.roc_auc_score GradientBoost.pdf_filename
              (fun _ => single_class_proba) (fun _ => single_class_labels)
              two_rows single_class_labels single_class_onehot fresh_world)
    as (Hraise & _).
  apply Hraise. reflexivity.
Defined.

(** ** A table emptied by the filters *)

(** C7, as stated, fails: on a table of which no record passes the
    filters, [prepare_data] is left by the [ValueError] of the scaler's
    input check, not by an [EmptyDatasetError]. *)
Lemma empty_table_error_is_not_empty_dataset_error :
  quality_filters GradientBoost.quality_threshold rejected_table = []
  /\ GradientBoost.prepare_data demo_scale demo_resample demo_split
       rejected_table
     = Raise empty_table_error
  /\ ~ raises (GradientBoost.prepare_data demo_scale demo_resample demo_split
                 rejected_table)
              "EmptyDatasetError".
Proof.
  assert (H : GradientBoost.prepare_data demo_scale demo_resample demo_split
                rejected_table
              = Raise empty_table_error) by reflexivity.
  split; [reflexivity|]. split; [exact H|]. rewrite H.
  intros (e & He & Hcls). inversion He. subst e. discriminate Hcls.
Qed.

(** C7, amended.  When the filters leave no record, [prepare_data] makes
    no check of its own and hands the empty table to the scaler; the
    exception the scaler raises on it (scikit-learn: a [ValueError],
    "Found array with 0 sample(s) ...") leaves [prepare_data] as it is,
    and the resampler and the splitter are not called.  Stated for the
    shared body of [prepare_data]; the three scripts are its instances. *)
Theorem empty_table_stops_at_scaler :
  forall (scale : list (list float) -> result (list (list float)))
         (resample : list (list float) -> list Z ->
                     result (list (list float) * list Z))
         (X Y : Type) (split : list X -> list Y -> result (Split X Y))
         (sq_min : float) (features : FeatureRow -> list float)
         (target : FeatureRow -> Z)
         (layout_x : list (list float) -> list X) (layout_y : list Z -> list Y)
         (df : DataFrame) (e : exn),
    quality_filters sq_min df = [] ->
    scale [] = Raise e ->
    prepare_data_with scale resample X Y split sq_min features target
      layout_x layout_y df
    = Raise e.
Proof.
  intros scale resample X Y split sq_min features target layout_x layout_y
    df e Hempty Hscale.
  unfold prepare_data_with. rewrite Hempty. simpl. rewrite Hscale.
  reflexivity.
Qed.

Lemma empty_table_stops_at_scaler_witness :
  CNN_LSTM_Hybrid.prepare_data demo_scale demo_resample demo_split
    rejected_table = Raise empty_table_error
  /\ GradientBoost.prepare_data demo_scale demo_resample demo_split
       rejected_table = Raise empty_table_error
  /\ resnet_Optimized.prepare_data demo_scale demo_resample demo_split
       rejected_table = Raise empty_table_error.
Proof.
  split; [|split];
    apply (empty_table_stops_at_scaler demo_scale demo_resample);
    reflexivity.
Defined.

(** ** The split *)

Section SplitLemmas.
Context {A : Type}.

Lemma safe_indexing_seq_from (l xs : list A) :
  omap (fun i => (l ++ xs) !! i) (seq (length l) (length xs)) = xs.
Proof.
  revert l. induction xs as [|x xs IH]; intros l; [reflexivity|].
  simpl. rewrite list_lookup_middle by reflexivity. f_equal.
  specialize (IH (l ++ [x])). rewrite <- app_assoc in IH. simpl in IH.
  rewrite length_app in IH. simpl in IH.
  replace (length l + 1)%nat with (S (length l)) in IH by lia. exact IH.
Qed.

Lemma safe_indexing_all (xs : list A) :
  safe_indexing xs (seq 0 (length xs)) = xs.
Proof. apply (safe_indexing_seq_from [] xs). Qed.

Lemma safe_indexing_length (xs : list A) idx :
  Forall (fun i => i < length xs)%nat idx ->
  length (safe_indexing xs idx) = length idx.
Proof.
  induction 1 as [|i idx Hi _ IH]; [reflexivity|].
  change (safe_indexing xs (i :: idx))
    with (match xs !! i with
          | Some x => x :: safe_indexing xs idx
          | None => safe_indexing xs idx
          end).
  destruct (lookup_lt_is_Some_2 xs i Hi) as [x Hx]. rewrite Hx. simpl.
  rewrite IH. reflexivity.
Qed.

Lemma safe_indexing_shuffle (xs : list A) p t :
  p ≡ₚ seq 0 (length xs) ->
  safe_indexing xs (drop t p) ++ safe_indexing xs (take t p) ≡ₚ xs.
Proof.
  intros Hp. unfold safe_indexing.
  rewrite (Permutation_app_comm _ _), <- omap_app, take_drop, Hp.
  fold (safe_indexing xs (seq 0 (length xs))).
  rewrite safe_indexing_all. reflexivity.
Qed.
End SplitLemmas.

Lemma n_test_of_fifth n :
  (n <= 5 * n_test_of 1 5 n < n + 5)%nat /\ (n_test_of 1 5 n <= n)%nat
  /\ (2 <= n -> n_test_of 1 5 n < n)%nat.
Proof.
  unfold n_test_of.
  replace (1 * n + (5 - 1))%nat with (n + 4)%nat by lia.
  pose proof (Nat.div_mod_eq (n + 4) 5) as Hd.
  pose proof (Nat.mod_upper_bound (n + 4) 5 ltac:(lia)) as Hm.
  lia.
Qed.

(** C5.  For a resampled table of at least two rows (it has both classes)
    and a generator whose shuffle is a permutation, the split succeeds;
    no position is in both index lists and every position is in one; the
    train and test rows together are the rows of the table; the test
    subset has a fifth of the rows, a fraction of a row counted as a row,
    and the train subset the others; and the state of the process-wide
    generator does not matter, so a second run gives the same split. *)
Theorem split_is_deterministic_partition :
  forall (rng_state : Type) (RandomState : Z -> rng_state)
         (rng_permutation : rng_state -> nat -> list nat)
         (X Y : Type) (xs : list X) (ys : list Y) (global : rng_state),
    (forall st n, rng_permutation st n ≡ₚ seq 0 n) ->
    length xs = length ys ->
    (2 <= length xs)%nat ->
    let n := length xs in
    let idx := split_indices rng_state RandomState rng_permutation
                 n (n_test_of 1 5 n) (Some 42%Z) global in
    exists s,
      train_test_split rng_state RandomState rng_permutation xs ys 1 5
        (Some 42%Z) global = Return s
      /\ s = MkSplit (safe_indexing xs idx.1) (safe_indexing xs idx.2)
                     (safe_indexing ys idx.1) (safe_indexing ys idx.2)
      /\ (forall i, i ∈ idx.1 -> i ∉ idx.2)
      /\ NoDup idx.1 /\ NoDup idx.2
      /\ (forall i, (i < n)%nat <-> i ∈ idx.1 \/ i ∈ idx.2)
      /\ x_train s ++ x_test s ≡ₚ xs
      /\ y_train s ++ y_test s ≡ₚ ys
      /\ length (x_test s) = n_test_of 1 5 n
      /\ (n <= 5 * length (x_test s) < n + 5)%nat
      /\ length (x_train s) = (n - length (x_test s))%nat
      /\ length (y_test s) = length (x_test s)
      /\ length (y_train s) = length (x_train s)
      /\ (forall global',
            train_test_split rng_state RandomState rng_permutation xs ys 1 5
              (Some 42%Z) global' = Return s).
Proof.
  intros rng_state RandomState rng_permutation X Y xs ys global Hperm Hlen Hn n idx.
  destruct (n_test_of_fifth n) as (Hfifth & Hle & Hlt). specialize (Hlt Hn).
  set (t := n_test_of 1 5 n) in *.
  set (p := rng_permutation (RandomState 42%Z) n).
  assert (Hp : p ≡ₚ seq 0 n) by apply Hperm.
  assert (Hplen : length p = n)
    by (rewrite (Permutation_length Hp); apply length_seq).
  assert (Htrain : take (n - t) (drop t p) = drop t p)
    by (apply take_ge; rewrite length_drop; lia).
  assert (Hidx : idx = (drop t p, take t p)).
  { subst idx. unfold split_indices, check_random_state. fold p.
    rewrite Htrain. reflexivity. }
  assert (Hnd : NoDup (take t p ++ drop t p)).
  { rewrite take_drop, Hp. apply NoDup_seq. }
  apply NoDup_app in Hnd as (Hnd1 & Hdisj & Hnd2).
  assert (Hin : forall i, (i < n)%nat <-> i ∈ drop t p \/ i ∈ take t p).
  { intros i. rewrite <- (or_comm (i ∈ take t p)), <- elem_of_app, take_drop, Hp.
    rewrite elem_of_seq. lia. }
  assert (Hbx : forall q, (forall i, i ∈ q -> (i < n)%nat) ->
                          Forall (fun i => (i < length xs)%nat) q).
  { intros q Hq. apply Forall_forall. exact Hq. }
  assert (Hby : forall q, (forall i, i ∈ q -> (i < n)%nat) ->
                          Forall (fun i => (i < length ys)%nat) q).
  { intros q Hq. apply Forall_forall. intros i Hi. rewrite <- Hlen. auto. }
  assert (Htest_lt : forall i, i ∈ take t p -> (i < n)%nat)
    by (intros i Hi; apply Hin; auto).
  assert (Htrain_lt : forall i, i ∈ drop t p -> (i < n)%nat)
    by (intros i Hi; apply Hin; auto).
  assert (Hrun : forall g,
             train_test_split rng_state RandomState rng_permutation xs ys 1 5
               (Some 42%Z) g
             = Return (MkSplit (safe_indexing xs (drop t p))
                               (safe_indexing xs (take t p))
                               (safe_indexing ys (drop t p))
                               (safe_indexing ys (take t p)))).
  { intros g. unfold train_test_split.
    rewrite <- Hlen, Nat.eqb_refl. simpl negb. cbv iota.
    fold n. fold t.
    destruct (n - t =? 0)%nat eqn:E; [apply Nat.eqb_eq in E; lia|].
    unfold split_indices, check_random_state. fold p. rewrite Htrain.
    reflexivity. }
  eexists. split; [apply Hrun|]. rewrite Hidx. simpl.
  split; [reflexivity|].
  split; [intros i Hi1 Hi2; exact (Hdisj i Hi2 Hi1)|].
  split; [exact Hnd2|]. split; [exact Hnd1|]. split; [exact Hin|].
  split; [apply safe_indexing_shuffle; exact Hp|].
  split; [apply safe_indexing_shuffle; rewrite <- Hlen; exact Hp|].
  rewrite !safe_indexing_length by auto.
  rewrite length_take, length_drop, Hplen.
  replace (t `min` n)%nat with t by lia.
  repeat split; try lia. intros g. apply Hrun.
Qed.

Lemma demo_permutation_shuffles (st : unit) (n : nat) :
  demo_permutation st n ≡ₚ seq 0 n.
Proof. apply reverse_Permutation. Qed.

Lemma split_is_deterministic_partition_witness :
  exists s,
    train_test_split unit demo_seed demo_permutation demo_x demo_y 1 5
      (Some 42%Z) tt = Return s
    /\ x_train s ++ x_test s ≡ₚ demo_x
    /\ y_train s ++ y_test s ≡ₚ demo_y
    /\ length (x_test s) = 2%nat
    /\ length (x_train s) = 4%nat.
Proof.
  destruct (split_is_deterministic_partition unit demo_seed demo_permutation
              (list float) Z demo_x demo_y tt demo_permutation_shuffles
              eq_refl ltac:(simpl; lia))
    as (s & Hs & _ & _ & _ & _ & _ & Hx & Hy & Htest & _ & Htrain & _).
  exists s. split; [exact Hs|]. split; [exact Hx|]. split; [exact Hy|].
  split; [exact Htest|]. rewrite Htrain, Htest. reflexivity.
Defined.

(** ** The resampled table *)

Lemma length_insert_by_dist a r l :
  length (insert_by_dist a r l) = S (length l).
Proof.
  induction l as [|r' l IH]; simpl; [reflexivity|].
  destruct (dist2 a r <=? dist2 a r'); simpl; [reflexivity|].
  rewrite IH. reflexivity.
Qed.

Lemma length_sort_by_dist a l : length (sort_by_dist a l) = length l.
Proof.
  induction l as [|r l IH]; [reflexivity|].
  change (sort_by_dist a (r :: l)) with (insert_by_dist a r (sort_by_dist a l)).
  rewrite length_insert_by_dist, IH. reflexivity.
Qed.

Lemma length_nearest k i rows :
  (i < length rows)%nat -> (k < length rows)%nat ->
  length (nearest k i rows) = k.
Proof.
  intros Hi Hk. unfold nearest.
  destruct (lookup_lt_is_Some_2 rows i Hi) as [a Ha]. rewrite Ha.
  rewrite length_take, length_sort_by_dist, length_app, length_take,
    length_drop.
  lia.
Qed.

Lemma length_synthesize k rows d :
  (0 < k)%nat -> (k < length rows)%nat ->
  length (synthesize k rows d) = 1%nat.
Proof.
  intros Hk Hrows. unfold synthesize.
  assert (Hi : (d.1.1 mod length rows < length rows)%nat)
    by (apply Nat.mod_upper_bound; lia).
  destruct (lookup_lt_is_Some_2 rows _ Hi) as [a Ha]. rewrite Ha.
  assert (Hj : (d.1.2 mod k < length (nearest k (d.1.1 mod length rows) rows))%nat).
  { rewrite length_nearest by assumption. apply Nat.mod_upper_bound. lia. }
  destruct (lookup_lt_is_Some_2 _ _ Hj) as [b Hb]. rewrite Hb. reflexivity.
Qed.

Lemma length_synthesized k (draw : Z -> nat -> nat * nat * float) (seed : Z)
    rows need :
  (0 < k)%nat -> (k < length rows)%nat ->
  length (concat (map (fun j => synthesize k rows (draw seed j)) (seq 0 need)))
  = need.
Proof.
  intros Hk Hrows. generalize 0%nat as from.
  induction need as [|need IH]; intros from; simpl; [reflexivity|].
  rewrite length_app, length_synthesize, IH by assumption. reflexivity.
Qed.

Lemma length_rows_of_class c x y :
  length x = length y -> length (rows_of_class c x y) = count_label c y.
Proof.
  revert y. induction x as [|r x IH]; intros [|l y] Hlen;
    try discriminate Hlen; [reflexivity|].
  simpl in Hlen. injection Hlen as Hlen. unfold count_label in *. simpl.
  destruct (c =? l)%Z; simpl; rewrite IH by exact Hlen; reflexivity.
Qed.

Lemma count_label_app c y1 y2 :
  count_label c (y1 ++ y2) = (count_label c y1 + count_label c y2)%nat.
Proof. unfold count_label. rewrite List.filter_app, length_app. reflexivity. Qed.

Lemma count_label_replicate c n l :
  count_label c (replicate n l) = if (c =? l)%Z then n else 0%nat.
Proof.
  unfold count_label. induction n as [|n IH]; simpl.
  - destruct (c =? l)%Z; reflexivity.
  - destruct (c =? l)%Z; simpl; rewrite IH; reflexivity.
Qed.

(** C6.  When the smaller class has more rows than the number of
    neighbours, the resampler returns, and in the table it returns the
    two classes have the same count, that of the larger class; the rows
    it was given are kept in front of the new ones. *)
Theorem resampled_classes_balanced :
  forall (k : nat) (draw : Z -> nat -> nat * nat * float) (seed : Z)
         (x : list (list float)) (y : list Z),
    length x = length y ->
    (0 < k)%nat ->
    (k < count_label 0 y `min` count_label 1 y)%nat ->
    exists x' y',
      fit_resample k draw seed x y = Return (x', y')
      /\ count_label 0 y' = count_label 1 y'
      /\ count_label 0 y' = (count_label 0 y `max` count_label 1 y)%nat
      /\ length x' = length y'
      /\ x `prefix_of` x' /\ y `prefix_of` y'.
Proof.
  intros k draw seed x y Hlen Hk Hmin. unfold fit_resample.
  set (n0 := count_label 0 y) in *. set (n1 := count_label 1 y) in *.
  destruct (n0 =? n1)%nat eqn:Heq.
  - apply Nat.eqb_eq in Heq. exists x, y.
    split; [reflexivity|]. split; [exact Heq|]. split; [fold n0; lia|].
    split; [exact Hlen|]. split; reflexivity.
  - apply Nat.eqb_neq in Heq.
    set (minority := if (n0 <? n1)%nat then 0%Z else 1%Z).
    set (rows := rows_of_class minority x y).
    assert (Hrows : length rows = (n0 `min` n1)%nat).
    { subst rows. rewrite length_rows_of_class by exact Hlen.
      subst minority. destruct (n0 <? n1)%nat eqn:E.
      - apply Nat.ltb_lt in E. fold n0. lia.
      - apply Nat.ltb_ge in E. fold n1. lia. }
    destruct (length rows <=? k)%nat eqn:Hfew;
      [apply Nat.leb_le in Hfew; lia|].
    eexists. eexists. split; [reflexivity|].
    rewrite !count_label_app, !count_label_replicate, !length_app,
      length_replicate, length_synthesized by lia.
    fold n0. fold n1. split; [|split; [|split; [|split]]].
    + subst minority. destruct (n0 <? n1)%nat eqn:E; simpl.
      * apply Nat.ltb_lt in E. lia.
      * apply Nat.ltb_ge in E. lia.
    + subst minority. destruct (n0 <? n1)%nat eqn:E; simpl.
      * apply Nat.ltb_lt in E. lia.
      * apply Nat.ltb_ge in E. lia.
    + lia.
    + apply prefix_app_r. reflexivity.
    + apply prefix_app_r. reflexivity.
Qed.

Lemma resampled_classes_balanced_witness :
  exists x' y',
    fit_resample 5 demo_draw 42 imbalanced_x imbalanced_y = Return (x', y')
    /\ count_label 0 y' = count_label 1 y'
    /\ count_label 0 y' = 9%nat
    /\ length x' = length y'.
Proof.
  destruct (resampled_classes_balanced 5 demo_draw 42 imbalanced_x imbalanced_y
              eq_refl ltac:(lia) ltac:(vm_compute; lia))
    as (x' & y' & Hrun & Heq & Hmax & Hlen & _).
  exists x', y'. split; [exact Hrun|]. split; [exact Heq|].
  split; [exact Hmax | exact Hlen].
Defined.

(** ** The ROC-AUC of the three scripts *)

Section ColumnLemmas.











End ColumnLemmas.




Lemma finite_rows_column_0 ps :
  finite_rows ps -> forallb sklearn.is_finite (map fst ps) = true.
Proof.
  induction 1 as [|p ps [Hp _] _ IH]; [reflexivity|].
  cbn [map forallb]. rewrite Hp, IH. reflexivity.
Qed.





Example saturated_column_0 : saturated_proba = [[1; 0x1p-70]; [1; 0x1p-69]].
Proof. reflexivity. Qed.

(** Scores that are [nan] are refused by [roc_auc_score]: the evaluation
    is left by its [ValueError] and no file is written. *)
Example diverged_scores_refused :
  CNN_LSTM_Hybrid.evaluate_model sklearn.accuracy_score
    sklearn.confusion_matrix sklearn.classification_report
    sklearn.roc_auc_score (fun _ => diverged_proba) two_rows
    saturated_onehot fresh_world
  = (Raise (Exn "ValueError" "Input contains NaN."), fresh_world).
Proof. vm_compute. reflexivity. Qed.




Lemma mixed_labels_binary : binary_labels mixed_labels.
Proof. repeat (constructor; [auto|]). constructor. Qed.



(** * Further properties of the scripts *)

(** ** The filters on repeated, split and incomplete tables *)

Lemma filter_idempotent {A} (p : A -> bool) l :
  List.filter p (List.filter p l) = List.filter p l.
Proof.
  rewrite filter_filter_and. apply List.filter_ext.
  intros x. destruct (p x); reflexivity.
Qed.

(** X1. Filtering an already filtered table changes nothing. *)
Theorem quality_filters_idempotent :
  forall (sq_min : float) (df : DataFrame),
    quality_filters sq_min (quality_filters sq_min df)
    = quality_filters sq_min df.
Proof.
  intros sq_min df. rewrite !quality_filters_filter. unfold rows_passing.
  apply filter_idempotent.
Qed.

(** X2. The filters decide row by row: the filtered concatenation of two
    tables is the concatenation of the filtered tables. *)
Theorem quality_filters_app :
  forall (sq_min : float) (df1 df2 : DataFrame),
    quality_filters sq_min (df1 ++ df2)
    = quality_filters sq_min df1 ++ quality_filters sq_min df2.
Proof.
  intros sq_min df1 df2. rewrite !quality_filters_filter. unfold rows_passing.
  apply List.filter_app.
Qed.

Lemma SFcompare_refl f : f <> S754_nan -> SFcompare f f = Some Eq.
Proof.
  destruct f as [s|s| |s m e]; intros H.
  - reflexivity.
  - destruct s; reflexivity.
  - contradiction.
  - unfold SFcompare. rewrite Z.compare_refl, Pos.compare_cont_refl.
    destruct s; reflexivity.
Qed.

Lemma is_nan_Prim2SF x : is_nan x = true -> Prim2SF x = S754_nan.
Proof.
  unfold is_nan. rewrite FloatAxioms.eqb_spec. unfold SFeqb. intros H.
  destruct (Prim2SF x) as [s|s| |s m e] eqn:E; try reflexivity;
    rewrite SFcompare_refl in H by discriminate; discriminate H.
Qed.

Lemma nan_leb_l x c : is_nan x = true -> (x <=? c) = false.
Proof. intros H. rewrite leb_spec, (is_nan_Prim2SF x H). reflexivity. Qed.

Lemma nan_leb_r x c : is_nan x = true -> (c <=? x) = false.
Proof.
  intros H. rewrite leb_spec, (is_nan_Prim2SF x H). unfold SFleb.
  destruct (Prim2SF c); reflexivity.
Qed.

(** X3. A record with a missing value ([nan]) in one of the four filtered
    columns does not survive, whatever the quality threshold. *)
Theorem missing_value_dropped :
  forall (sq_min : float) (df : DataFrame) (ir : nat * FeatureRow),
    is_nan (hrv_sdnn ir.2) || is_nan (hrv_rmssd ir.2) || is_nan (cv ir.2)
    || is_nan (signal_quality ir.2) = true ->
    ir ∉ quality_filters sq_min df.
Proof.
  intros sq_min df ir Hnan Hin.
  rewrite quality_filters_filter in Hin. unfold rows_passing in Hin.
  apply list_elem_of_In, List.filter_In in Hin as [_ Hok].
  unfold row_ok, sdnn_ok, rmssd_ok, cv_ok, quality_ok in Hok.
  apply andb_prop in Hok as [Hok H4]. apply andb_prop in Hok as [Hok H3].
  apply andb_prop in Hok as [H1 H2].
  apply orb_prop in Hnan as [Hnan | Hn];
    [apply orb_prop in Hnan as [Hnan | Hn];
     [apply orb_prop in Hnan as [Hn | Hn]|]|].
  - rewrite nan_leb_l in H1 by exact Hn. discriminate H1.
  - rewrite nan_leb_l in H2 by exact Hn. discriminate H2.
  - rewrite nan_leb_l in H3 by exact Hn. discriminate H3.
  - rewrite nan_leb_r in H4 by exact Hn. discriminate H4.
Qed.

Lemma missing_value_dropped_witness :
  (2%nat, mk_row 120 nan 0.125 0.875 0) ∈ sample_table
  /\ (2%nat, mk_row 120 nan 0.125 0.875 0) ∉ quality_filters SQ_03 sample_table.
Proof.
  split.
  - unfold sample_table. rewrite !elem_of_cons. auto.
  - apply (missing_value_dropped SQ_03 sample_table
             (2%nat, mk_row 120 nan 0.125 0.875 0)).
    reflexivity.
Defined.

Lemma half_le_three_tenths q : (SQ_05 <=? q) = true -> (SQ_03 <=? q) = true.
Proof.
  rewrite !leb_spec.
  change (Prim2SF SQ_05) with (S754_finite false 4503599627370496 (-53)).
  change (Prim2SF SQ_03) with (S754_finite false 5404319552844595 (-54)).
  unfold SFleb. destruct (Prim2SF q) as [s|s| |s m e].
  - destruct s; simpl; congruence.
  - destruct s; simpl; congruence.
  - simpl. congruence.
  - destruct s; [simpl; congruence|]. unfold SFcompare.
    destruct (Z.compare_spec (-53) e) as [H|H|H]; intros Hc;
      try discriminate.
    + subst e. reflexivity.
    + destruct (Z.compare_spec (-54) e) as [H'|H'|H']; try reflexivity; lia.
Qed.

(** X4. The residual script's filter is the stricter one: what it keeps
    of a table is what its quality line keeps of the table the other two
    scripts keep, so every record it keeps they keep as well. *)
Theorem residual_filter_is_stricter :
  forall (df : DataFrame),
    quality_filters resnet_Optimized.quality_threshold df
    = filter_quality resnet_Optimized.quality_threshold
        (quality_filters CNN_LSTM_Hybrid.quality_threshold df)
    /\ quality_filters resnet_Optimized.quality_threshold df
       `sublist_of` quality_filters GradientBoost.quality_threshold df.
Proof.
  intros df.
  assert (H : quality_filters SQ_05 df
              = filter_quality SQ_05 (quality_filters SQ_03 df)).
  { unfold filter_quality. rewrite getitem_mask_ge, !quality_filters_filter.
    unfold rows_passing. rewrite filter_filter_and.
    apply List.filter_ext. intros [i r]. unfold row_ok, quality_ok. simpl.
    destruct (SQ_05 <=? signal_quality r) eqn:E.
    - rewrite (half_le_three_tenths _ E), !andb_true_r. reflexivity.
    - rewrite !andb_false_r. reflexivity. }
  split; [exact H|].
  change resnet_Optimized.quality_threshold with SQ_05.
  change GradientBoost.quality_threshold with SQ_03.
  rewrite H. unfold filter_quality. rewrite getitem_mask_ge.
  generalize (quality_filters SQ_03 df). intros l.
  induction l as [|ir l IH]; simpl; [constructor|].
  destruct (SQ_05 <=? signal_quality ir.2);
    [by apply sublist_skip | by apply sublist_cons].
Qed.

(** ** Labels encoded by [prepare_data] and decoded by [evaluate_model] *)

Lemma argmaxZ_from_zeros best_i i k (rest : list Z) :
  argmaxZ_from best_i 0 i (replicate k 0%Z ++ rest)
  = argmaxZ_from best_i 0 (k + i) rest.
Proof.
  revert i. induction k as [|k IH]; intros i; [reflexivity|].
  simpl. rewrite IH. f_equal. lia.
Qed.

Lemma argmaxZ_from_one best_i i k :
  argmaxZ_from best_i 1 i (replicate k 0%Z) = best_i.
Proof. revert i. induction k as [|k IH]; intros i; [reflexivity|]. simpl. apply IH. Qed.

Lemma map_seq_zero (f : nat -> Z) a n :
  (forall j, (a <= j < a + n)%nat -> f j = 0%Z) ->
  map f (seq a n) = replicate n 0%Z.
Proof.
  revert a. induction n as [|n IH]; intros a Hf; [reflexivity|].
  simpl. rewrite Hf by lia. f_equal. apply IH. intros j Hj. apply Hf. lia.
Qed.

Lemma one_hot_shape (nc : nat) (l : Z) :
  (0 <= l < Z.of_nat nc)%Z ->
  one_hot nc l
  = replicate (Z.to_nat l) 0%Z ++ 1%Z :: replicate (nc - S (Z.to_nat l)) 0%Z.
Proof.
  intros Hl. unfold one_hot.
  replace nc with (Z.to_nat l + S (nc - S (Z.to_nat l)))%nat at 1 by lia.
  rewrite seq_app, map_app. cbn [seq map]. f_equal; [|f_equal].
  - apply map_seq_zero. intros j Hj.
    destruct (Z.eqb_spec (Z.of_nat j) l); [lia | reflexivity].
  - destruct (Z.eqb_spec (Z.of_nat (0 + Z.to_nat l)) l); [reflexivity | lia].
  - apply map_seq_zero. intros j Hj.
    destruct (Z.eqb_spec (Z.of_nat j) l); [lia | reflexivity].
Qed.

Lemma argmaxZ_one_hot (nc : nat) (l : Z) :
  (0 <= l < Z.of_nat nc)%Z -> Z.of_nat (argmaxZ (one_hot nc l)) = l.
Proof.
  intros Hl. rewrite one_hot_shape by exact Hl.
  destruct (Z.to_nat l) as [|k] eqn:E.
  - simpl. rewrite argmaxZ_from_one. lia.
  - change (replicate (S k) 0%Z) with (0%Z :: replicate k 0%Z).
    simpl. rewrite argmaxZ_from_zeros. simpl.
    rewrite argmaxZ_from_one. lia.
Qed.

(** X5. Decoding undoes encoding: [np.argmax(y_test, axis=1)] in
    [evaluate_model] gives back the labels that [prepare_data] encoded with
    [to_categorical], for labels from 0 up to the number of classes. *)
Theorem argmax_decodes_to_categorical :
  forall (num_classes : nat) (y : list Z),
    Forall (fun l => 0 <= l < Z.of_nat num_classes)%Z y ->
    map (fun row => Z.of_nat (argmaxZ row)) (to_categorical y (Some num_classes))
    = y.
Proof.
  intros nc y Hy. unfold to_categorical. rewrite List.map_map.
  induction Hy as [|l y Hl _ IH]; [reflexivity|].
  cbn [map]. rewrite argmaxZ_one_hot by exact Hl. f_equal. exact IH.
Qed.

Lemma argmax_decodes_to_categorical_witness :
  map (fun row => Z.of_nat (argmaxZ row)) (to_categorical mixed_labels (Some 2%nat))
  = mixed_labels.
Proof.
  apply (argmax_decodes_to_categorical 2 mixed_labels).
  repeat (constructor; [lia|]). constructor.
Defined.

Lemma max_label_binary (y : list Z) :
  binary_labels y ->
  foldr Z.max (-1)%Z y
  = if bool_decide (1%Z ∈ y) then 1%Z
    else match y with [] => (-1)%Z | _ :: _ => 0%Z end.
Proof.
  induction 1 as [|l y Hl Hy IH]; [reflexivity|].
  cbn [foldr]. rewrite IH.
  destruct Hl as [-> | ->].
  - destruct (decide (1%Z ∈ y)) as [Hin|Hin].
    + rewrite (bool_decide_true (1%Z ∈ y)) by exact Hin.
      rewrite (bool_decide_true (1%Z ∈ 0%Z :: y))
        by (apply elem_of_cons; auto).
      reflexivity.
    + rewrite (bool_decide_false (1%Z ∈ y)) by exact Hin.
      rewrite (bool_decide_false (1%Z ∈ 0%Z :: y))
        by (rewrite elem_of_cons; intros [?|?]; [discriminate | contradiction]).
      destruct y; reflexivity.
  - rewrite (bool_decide_true (1%Z ∈ 1%Z :: y)) by (apply elem_of_cons; auto).
    destruct (bool_decide (1%Z ∈ y)); [reflexivity|]. destruct y; reflexivity.
Qed.

(** X6. The recurrent script encodes without a class count, the residual
    script with two classes.  For labels 0 and 1 the two agree exactly when
    the label 1 occurs; a table with only class 0 gets one column from the
    recurrent script and two from the residual one. *)
Theorem to_categorical_width :
  forall (y : list Z),
    binary_labels y ->
    to_categorical y None
    = to_categorical y (Some (if bool_decide (1%Z ∈ y) then 2%nat else 1%nat)).
Proof.
  intros y Hy. unfold to_categorical. rewrite (max_label_binary y Hy).
  destruct (bool_decide (1%Z ∈ y)); [reflexivity|].
  destruct y; reflexivity.
Qed.

Lemma to_categorical_width_witness :
  to_categorical mixed_labels None = to_categorical mixed_labels (Some 2%nat)
  /\ to_categorical [0; 0]%Z None = [[1]; [1]]%Z.
Proof.
  split.
  - apply (to_categorical_width mixed_labels mixed_labels_binary).
  - apply (to_categorical_width [0; 0]%Z).
    repeat (constructor; [auto|]). constructor.
Defined.

Lemma argmax_from_bound best_i best i row :
  (best_i < i)%nat -> (argmax_from best_i best i row < i + length row)%nat.
Proof.
  revert best_i best i. induction row as [|v row IH]; intros best_i best i Hb.
  - simpl. lia.
  - simpl. destruct (is_nan best); [lia|].
    destruct (is_nan v || (best <? v)).
    + specialize (IH i v (S i) ltac:(lia)). lia.
    + specialize (IH best_i best (S i) ltac:(lia)). lia.
Qed.

(** X7. The predicted class is always a column of the probability row:
    [np.argmax] of a row that is not empty is a position in it, also when
    entries are [nan]. *)
Theorem argmax_in_row :
  forall (row : list float), row <> [] -> (argmax row < length row)%nat.
Proof.
  intros [|v row] H; [contradiction|]. unfold argmax.
  pose proof (argmax_from_bound 0 v 1 row ltac:(lia)). simpl. lia.
Qed.

Lemma argmax_in_row_witness :
  (argmax [0.25; nan; 0.75]%float < 3)%nat
  /\ argmax [0.25; nan; 0.75] = 1%nat.
Proof.
  split; [|reflexivity].
  apply (argmax_in_row [0.25; nan; 0.75]). discriminate.
Defined.

(** ** The report table *)

Section ReportTable.
Context {M : Type}.

Lemma column_position_absent name (names : list string) :
  name ∉ names -> column_position name names = None.
Proof.
  intros H. unfold column_position.
  assert (Hnone : list_find (fun n => n = name) names = None).
  { apply list_find_None. apply Forall_forall. intros n Hn ->. exact (H Hn). }
  rewrite Hnone. reflexivity.
Qed.

Lemma column_position_middle name (pre rest : list string) :
  name ∉ pre -> column_position name (pre ++ name :: rest) = Some (length pre).
Proof.
  unfold column_position. induction pre as [|n pre IH]; intros H.
  - simpl. rewrite decide_True by reflexivity. reflexivity.
  - assert (Hn : n <> name) by (intros ->; apply H; left).
    assert (Hpre : name ∉ pre) by (intros Hin; apply H; right; exact Hin).
    specialize (IH Hpre). simpl. rewrite decide_False by exact Hn.
    destruct (list_find (fun n0 => n0 = name) (pre ++ name :: rest))
      as [[j x]|]; [|discriminate IH].
    simpl in *. injection IH as ->. reflexivity.
Qed.

Lemma column_positions (pre cols rest : list string) :
  NoDup (pre ++ cols) ->
  mapM (fun n => column_position n (pre ++ cols ++ rest)) cols
  = Some (seq (length pre) (length cols)).
Proof.
  revert pre. induction cols as [|c cols IH]; intros pre Hnd; [reflexivity|].
  assert (Hc : c ∉ pre).
  { apply NoDup_app in Hnd as (_ & Hd & _). intros Hin.
    apply (Hd c Hin). left. }
  cbn [mapM]. change ((c :: cols) ++ rest) with (c :: (cols ++ rest)).
  rewrite (column_position_middle c pre (cols ++ rest) Hc). simpl.
  specialize (IH (pre ++ [c])). rewrite <- !app_assoc in IH. simpl in IH.
  rewrite IH by exact Hnd. rewrite length_app. simpl.
  replace (length pre + 1)%nat with (S (length pre)) by lia. reflexivity.
Qed.

Lemma lookups_of_prefix {A} (xs ys : list A) :
  omap (fun j => (xs ++ ys) !! j) (seq 0 (length xs)) = xs.
Proof.
  pose proof (safe_indexing_all (xs ++ ys)) as Hall.
  unfold safe_indexing in Hall.
  rewrite length_app, seq_app, omap_app in Hall.
  apply app_inj_1 in Hall as [H _]; [exact H|].
  fold (safe_indexing (xs ++ ys) (seq 0 (length xs))).
  rewrite safe_indexing_length; [apply length_seq|].
  apply Forall_forall. intros j Hj. apply elem_of_seq in Hj.
  rewrite length_app. lia.
Qed.

Lemma last_to_front_snoc {A} (cols : list A) (c : A) :
  last_to_front (cols ++ [c]) = Return (c :: cols).
Proof.
  unfold last_to_front. rewrite last_snoc, length_app. simpl.
  replace (length cols + 1 - 1)%nat with (length cols) by lia.
  rewrite take_app_length. reflexivity.
Qed.
End ReportTable.

(** X8. The table that goes into the image: for a report whose columns
    have distinct names, none of them "labels", the three lines that add
    the index as a column and move the last column to the front return
    the same rows with the row label as first cell, under the header
    "labels" followed by the old header. *)
Theorem label_report_puts_labels_first :
  forall (M : Type) (class_report_df : Frame M),
    NoDup (fr_columns class_report_df) ->
    "labels" ∉ fr_columns class_report_df ->
    rectangular class_report_df ->
    label_report class_report_df
    = Return (MkFrame ("labels" :: fr_columns class_report_df)
                (map (fun ir => (ir.1, CellStr ir.1 :: ir.2))
                     (fr_rows class_report_df))).
Proof.
  intros M [cols rows] Hnd Hlab Hrect. simpl in *.
  unfold label_report, setitem_index. simpl.
  rewrite column_position_absent by exact Hlab. simpl.
  rewrite last_to_front_snoc. cbn [mbind result_bind].
  unfold getitem_columns. cbn [fr_columns fr_rows mapM].
  rewrite (column_position_middle "labels" cols [] Hlab).
  pose proof (column_positions [] cols ["labels"] Hnd) as Hpos.
  change ([] ++ cols ++ ["labels"]) with (cols ++ ["labels"]) in Hpos.
  cbn [mbind option_bind]. rewrite Hpos. cbn [mbind option_bind mret option_ret].
  f_equal. f_equal. rewrite List.map_map.
  apply List.map_ext_in. intros [i r] Hin. simpl. f_equal.
  unfold rectangular in Hrect. simpl in Hrect.
  rewrite List.Forall_forall in Hrect. specialize (Hrect _ Hin). simpl in Hrect.
  rewrite <- Hrect.
  rewrite (list_lookup_middle r [] (CellStr i) (length r) eq_refl).
  f_equal. apply lookups_of_prefix.
Qed.

Lemma label_report_puts_labels_first_witness :
  label_report sample_report
  = Return (MkFrame ["labels"; "precision"; "recall"; "f1-score"; "support"]
      [("0", [CellStr "0"; CellNum (2 # 3); CellNum 1; CellNum (4 # 5);
              CellNum 2]);
       ("1", [CellStr "1"; CellNum 1; CellNum (1 # 2); CellNum (2 # 3);
              CellNum 2]);
       ("accuracy", [CellStr "accuracy"; CellNum (3 # 4); CellNum (3 # 4);
                     CellNum (3 # 4); CellNum (3 # 4)])]%Q).
Proof.
  apply (label_report_puts_labels_first Q sample_report).
  - apply (bool_decide_unpack _). vm_compute. reflexivity.
  - apply (bool_decide_unpack _). vm_compute. reflexivity.
  - repeat (constructor; [reflexivity|]). constructor.
Defined.

(** X9. [[cols[-1]] + cols[:-1]] on an empty list raises [IndexError]; on
    every other list it returns the last entry followed by the entries
    before it, which is a rearrangement of the list. *)
Theorem last_to_front_rearranges :
  forall (A : Type) (cols : list A),
    match cols with
    | [] => raises (last_to_front cols) "IndexError"
    | _ :: _ =>
        exists front c,
          cols = front ++ [c]
          /\ last_to_front cols = Return (c :: front)
          /\ c :: front ≡ₚ cols
    end.
Proof.
  intros A cols. destruct cols as [|c cols _] using rev_ind.
  - eexists. split; reflexivity.
  - destruct (cols ++ [c]) as [|a l] eqn:E.
    + destruct cols; discriminate E.
    + rewrite <- E. exists cols, c. split; [reflexivity|].
      split; [apply last_to_front_snoc | apply Permutation_cons_append].
Qed.

(** ** Files: edge cases and what is left behind *)

(** X10. [delete_images] on every directory: without the report image it
    raises [FileNotFoundError] and removes nothing, so a heatmap that is
    there stays; with the report image but no heatmap it removes the
    report image and then raises; with both it removes both. *)
Theorem delete_images_cases :
  forall (M : Type) (w : World M),
    delete_images w
    = match files w !! classification_report_png,
            files w !! confusion_matrix_png with
      | None, _ =>
          (Raise (Exn "FileNotFoundError" classification_report_png), w)
      | Some _, None =>
          (Raise (Exn "FileNotFoundError" confusion_matrix_png),
           MkWorld (delete classification_report_png (files w)) (unwritable w))
      | Some _, Some _ =>
          (Return tt,
           MkWorld (delete confusion_matrix_png
                      (delete classification_report_png (files w)))
                   (unwritable w))
      end.
Proof.
  intros M w. unfold delete_images, io_bind, os_remove.
  destruct (files w !! classification_report_png) as [a|]; [|reflexivity].
  simpl. rewrite lookup_delete_ne by discriminate.
  destruct (files w !! confusion_matrix_png); reflexivity.
Qed.

(** X11. [create_pdf] relies on the report image being there: where it is
    missing, [drawImage] raises before anything is written, the heatmap
    included. *)
Theorem create_pdf_needs_report_image :
  forall (M : Type) (pdf_filename : string) (accuracy roc_auc : M)
         (conf_matrix : list (list nat)) (w : World M),
    files w !! classification_report_png = None ->
    create_pdf pdf_filename accuracy roc_auc conf_matrix w
    = (Raise (Exn "OSError" classification_report_png), w).
Proof.
  intros M pdf acc auc cm w H. unfold create_pdf, io_bind, read_file.
  rewrite H. reflexivity.
Qed.

Lemma create_pdf_needs_report_image_witness :
  create_pdf GradientBoost.pdf_filename (1 # 2) (3 # 4) [[1; 1]; [0; 2]]%nat
    fresh_world
  = (Raise (Exn "OSError" classification_report_png), fresh_world).
Proof.
  apply (create_pdf_needs_report_image Q GradientBoost.pdf_filename).
  reflexivity.
Defined.

Section ReportRun.
Context {M : Type}.
Variable pdf_filename : string.
Variables (accuracy roc_auc : M) (conf_matrix : list (list nat)).
Variable class_report_df : list (string * list M).

Local Abbreviation rendered :=
  (report_rendered pdf_filename accuracy roc_auc conf_matrix class_report_df).

Lemma render_report_run (w : World M) :
  classification_report_png ∉ unwritable w ->
  confusion_matrix_png ∉ unwritable w ->
  pdf_filename ∉ unwritable w ->
  pdf_filename <> classification_report_png ->
  pdf_filename <> confusion_matrix_png ->
  render_report pdf_filename accuracy roc_auc conf_matrix class_report_df w
  = (Return tt, rendered w).
Proof.
  intros Hcr Hcm Hpdf Hne1 Hne2.
  unfold render_report, create_classification_report_image, create_pdf.
  erewrite io_bind_step by (apply write_file_ok, Hcr).
  erewrite io_bind_step.
  2:{ erewrite io_bind_step
        by (unfold read_file; simpl; rewrite lookup_insert_eq; reflexivity).
      erewrite io_bind_step by (apply write_file_ok; exact Hcm).
      erewrite io_bind_step
        by (unfold read_file; simpl; rewrite lookup_insert_eq; reflexivity).
      apply write_file_ok. exact Hpdf. }
  unfold delete_images, io_bind at 1, os_remove at 1. simpl.
  rewrite lookup_insert_ne by exact Hne1.
  rewrite lookup_insert_ne by discriminate.
  rewrite lookup_insert_eq.
  unfold os_remove. simpl.
  rewrite lookup_delete_ne by discriminate.
  rewrite lookup_insert_ne by exact Hne2.
  rewrite lookup_insert_eq.
  unfold report_rendered. f_equal. f_equal. apply map_eq. intros p.
  destruct (decide (p = pdf_filename)) as [->|Hp].
  - rewrite lookup_insert_eq.
    rewrite lookup_delete_ne by (intros E; apply Hne2; symmetry; exact E).
    rewrite lookup_delete_ne by (intros E; apply Hne1; symmetry; exact E).
    apply lookup_insert_eq.
  - rewrite (lookup_insert_ne _ pdf_filename p) by (intros E; apply Hp; symmetry; exact E).
    destruct (decide (p = confusion_matrix_png)) as [->|Hp2].
    + rewrite !lookup_delete_eq. reflexivity.
    + rewrite !(lookup_delete_ne _ confusion_matrix_png p)
        by (intros E; apply Hp2; symmetry; exact E).
      destruct (decide (p = classification_report_png)) as [->|Hp3].
      * rewrite !lookup_delete_eq. reflexivity.
      * rewrite !(lookup_delete_ne _ classification_report_png p)
          by (intros E; apply Hp3; symmetry; exact E).
        rewrite lookup_insert_ne by (intros E; apply Hp; symmetry; exact E).
        rewrite lookup_insert_ne by (intros E; apply Hp2; symmetry; exact E).
        rewrite lookup_insert_ne by (intros E; apply Hp3; symmetry; exact E).
        reflexivity.
Qed.

Lemma rendered_again (w : World M) :
  pdf_filename <> classification_report_png ->
  pdf_filename <> confusion_matrix_png ->
  rendered (rendered w) = rendered w.
Proof.
  intros Hne1 Hne2. unfold report_rendered. simpl. f_equal. apply map_eq.
  intros p.
  destruct (decide (p = pdf_filename)) as [->|Hp].
  - rewrite !lookup_insert_eq. reflexivity.
  - rewrite !(lookup_insert_ne _ pdf_filename p)
      by (intros E; apply Hp; symmetry; exact E).
    destruct (decide (p = confusion_matrix_png)) as [->|Hp2].
    + rewrite !lookup_delete_eq. reflexivity.
    + rewrite !(lookup_delete_ne _ confusion_matrix_png p)
        by (intros E; apply Hp2; symmetry; exact E).
      destruct (decide (p = classification_report_png)) as [->|Hp3].
      * rewrite !lookup_delete_eq. reflexivity.
      * rewrite !(lookup_delete_ne _ classification_report_png p)
          by (intros E; apply Hp3; symmetry; exact E).
        rewrite lookup_insert_ne by (intros E; apply Hp; symmetry; exact E).
        rewrite !(lookup_delete_ne _ confusion_matrix_png p)
          by (intros E; apply Hp2; symmetry; exact E).
        rewrite !(lookup_delete_ne _ classification_report_png p)
          by (intros E; apply Hp3; symmetry; exact E).
        reflexivity.
Qed.
End ReportRun.

(** X12. What a successful report leaves: where the three files can be
    written, the three statements return, the PDF holds the accuracy, the
    ROC-AUC, the table and the matrix they were given, the two images are
    gone (also images left by an earlier, failed run), and every other
    file is as before.  Rendering the same report again changes nothing
    more. *)
Theorem render_report_leaves_only_the_pdf :
  forall (M : Type) (pdf_filename : string) (accuracy roc_auc : M)
         (conf_matrix : list (list nat))
         (class_report_df : list (string * list M)) (w : World M),
    classification_report_png ∉ unwritable w ->
    confusion_matrix_png ∉ unwritable w ->
    pdf_filename ∉ unwritable w ->
    pdf_filename <> classification_report_png ->
    pdf_filename <> confusion_matrix_png ->
    let render :=
      render_report pdf_filename accuracy roc_auc conf_matrix class_report_df in
    let w' :=
      report_rendered pdf_filename accuracy roc_auc conf_matrix
        class_report_df w in
    render w = (Return tt, w')
    /\ files w' !! pdf_filename
       = Some (PdfReport accuracy roc_auc class_report_df conf_matrix)
    /\ files w' !! classification_report_png = None
    /\ files w' !! confusion_matrix_png = None
    /\ (forall p, p <> pdf_filename -> p <> classification_report_png ->
                  p <> confusion_matrix_png -> files w' !! p = files w !! p)
    /\ render w' = (Return tt, w').
Proof.
  intros M pdf acc auc cm rep w Hcr Hcm Hpdf Hne1 Hne2 render w'.
  subst render w'. split; [apply render_report_run; assumption|].
  split; [apply lookup_insert_eq|].
  split.
  { simpl. rewrite lookup_insert_ne by exact Hne1.
    rewrite lookup_delete_ne by discriminate. apply lookup_delete_eq. }
  split.
  { simpl. rewrite lookup_insert_ne by exact Hne2. apply lookup_delete_eq. }
  split.
  { intros p Hp1 Hp2 Hp3. simpl.
    rewrite lookup_insert_ne by (intros E; apply Hp1; symmetry; exact E).
    rewrite lookup_delete_ne by (intros E; apply Hp3; symmetry; exact E).
    apply lookup_delete_ne. intros E. apply Hp2. symmetry. exact E. }
  rewrite render_report_run by assumption.
  rewrite rendered_again by assumption. reflexivity.
Qed.

Lemma render_report_leaves_only_the_pdf_witness :
  let w' :=
    report_rendered GradientBoost.pdf_filename (1 # 2) (3 # 4)
      [[1; 1]; [0; 2]]%nat [("0", [1; 1 # 2; 2 # 3; 2]%Q)] fresh_world in
  render_report GradientBoost.pdf_filename (1 # 2) (3 # 4) [[1; 1]; [0; 2]]%nat
    [("0", [1; 1 # 2; 2 # 3; 2]%Q)] fresh_world = (Return tt, w')
  /\ render_report GradientBoost.pdf_filename (1 # 2) (3 # 4)
       [[1; 1]; [0; 2]]%nat [("0", [1; 1 # 2; 2 # 3; 2]%Q)] w'
     = (Return tt, w').
Proof.
  intros w'.
  destruct (render_report_leaves_only_the_pdf Q GradientBoost.pdf_filename
              (1 # 2) (3 # 4) [[1; 1]; [0; 2]]%nat
              [("0", [1; 1 # 2; 2 # 3; 2]%Q)] fresh_world)
    as (Hrun & _ & _ & _ & _ & Hagain);
    try (simpl; apply not_elem_of_empty); try discriminate.
  split; [exact Hrun | exact Hagain].
Defined.

Lemma column_of_short {A} (j : nat) (rows : list (list A)) :
  Exists (fun row => (length row <= j)%nat) rows ->
  column_of j rows
  = Raise (Exn "IndexError" "index is out of bounds for axis 1").
Proof.
  intros H. unfold column_of.
  assert (Hnone : mapM (fun row : list A => row !! j) rows = None).
  { induction H as [row rows Hrow | row rows _ IH].
    - cbn [mapM]. rewrite (lookup_ge_None_2 row j Hrow). reflexivity.
    - cbn [mapM]. rewrite IH. destruct (row !! j); reflexivity. }
  rewrite Hnone. reflexivity.
Qed.

(** X13. The boosted evaluator needs two probability columns: when some
    row of [predict_proba] has fewer than two entries, the slice [[:, 1]]
    raises [IndexError] and nothing is written. *)
Theorem boosted_evaluation_needs_two_columns :
  forall (M X : Type) (accuracy_score : list Z -> list Z -> M)
         (confusion_matrix : list Z -> list Z -> list (list nat))
         (classification_report : list Z -> list Z -> list (string * list M))
         (roc_auc_score : ndarray Z -> ndarray float -> result M)
         (predict_proba : list X -> list (list float))
         (predict : list X -> list Z)
         (x_test : list X) (y_test : list Z) (w : World M),
    Exists (fun row => (length row < 2)%nat) (predict_proba x_test) ->
    GradientBoost.evaluate_model accuracy_score confusion_matrix
      classification_report roc_auc_score predict_proba predict x_test y_test w
    = (Raise (Exn "IndexError" "index is out of bounds for axis 1"), w).
Proof.
  intros M X acc cm rep roc predict_proba predict x_test y_test w H.
  unfold GradientBoost.evaluate_model, evaluate_model_boosted.
  rewrite column_of_short; [reflexivity|].
  eapply Exists_impl; [exact H|]. intros row Hrow. simpl in Hrow. lia.
Qed.

Lemma boosted_evaluation_needs_two_columns_witness :
  GradientBoost.evaluate_model sklearn.accuracy_score sklearn.confusion_matrix
    sklearn.classification_report sklearn.roc_auc_score
    (fun _ => [[0.75]; [0.25]]) (fun _ => [1; 0]%Z) two_rows [1; 0]%Z
    fresh_world
  = (Raise (Exn "IndexError" "index is out of bounds for axis 1"), fresh_world).
Proof.
  apply (boosted_evaluation_needs_two_columns Q (list float)).
  apply Exists_cons_hd. simpl. lia.
Defined.

(** ** The search of the recurrent script *)

Section Binds.
Context {M : Type}.

Lemma io_bind_assoc {A B C} (c : io M A) (k : A -> io M B) (h : B -> io M C) w :
  io_bind (io_bind c k) h w = io_bind c (fun a => io_bind (k a) h) w.
Proof. unfold io_bind. destruct (c w) as [[a|e] w1]; reflexivity. Qed.
End Binds.

(** X14. The search of the recurrent script ends in its first trial:
    whatever parameters the trials propose and however many trials
    follow, [objective] is left by the [ValueError] with which Keras
    refuses the recurrent layer after [Flatten], the search is left by
    the same exception, and the machine is as it was, so that no trial
    writes the model file and none reaches [fit]. *)
Theorem search_stops_at_first_trial :
  forall (M : Type) (input_shape : list Z)
         (trial : Z * Z * Z * float) (trials : list (Z * Z * Z * float))
         (w : World M),
    exists e,
      exn_class e = "ValueError"
      /\ CNN_LSTM_Hybrid.objective (CNN_LSTM_Hybrid.add_layers input_shape)
           trial w
         = (Raise e, w)
      /\ CNN_LSTM_Hybrid.optimize (CNN_LSTM_Hybrid.add_layers input_shape)
           (trial :: trials) w
         = (Raise e, w).
Proof.
  intros M input_shape trial trials w.
  destruct (objective_rejected (M:=M) input_shape trial) as (e & Hcls & Ho).
  exists e. split; [exact Hcls|]. split; [apply Ho|].
  cbn [CNN_LSTM_Hybrid.optimize]. unfold io_bind at 1. rewrite Ho.
  reflexivity.
Qed.

(** ** The files a script touches *)

Section Touches.
Context {M : Type}.
Implicit Types paths : list string.

Lemma touches_ret {A} paths (a : A) : touches_only (M:=M) paths (io_ret a).
Proof. intros w r w' H. inversion H. auto. Qed.

Lemma touches_lift {A} paths (c : result A) :
  touches_only (M:=M) paths (io_lift c).
Proof. intros w r w' H. inversion H. auto. Qed.

Lemma touches_bind {A B} paths (c : io M A) (k : A -> io M B) :
  touches_only paths c -> (forall a, touches_only paths (k a)) ->
  touches_only paths (io_bind c k).
Proof.
  intros Hc Hk w r w' H. unfold io_bind in H.
  destruct (c w) as [[a|e] w1] eqn:E.
  - destruct (Hc _ _ _ E) as [Hu Hf]. destruct (Hk a _ _ _ H) as [Hu' Hf'].
    split; [congruence|]. intros p Hp. rewrite Hf', Hf by exact Hp. reflexivity.
  - inversion H. subst. exact (Hc _ _ _ E).
Qed.

Lemma touches_write paths path (a : artifact M) :
  path ∈ paths -> touches_only paths (write_file path a).
Proof.
  intros Hin w r w' H. unfold write_file in H.
  destruct (decide (path ∈ unwritable w)); inversion H; subst; [auto|].
  split; [reflexivity|]. intros p Hp. simpl.
  apply lookup_insert_ne. intros ->. exact (Hp Hin).
Qed.

Lemma touches_read paths path : touches_only (M:=M) paths (read_file path).
Proof.
  intros w r w' H. unfold read_file in H.
  destruct (files w !! path); inversion H; auto.
Qed.

Lemma touches_remove paths path :
  path ∈ paths -> touches_only (M:=M) paths (os_remove path).
Proof.
  intros Hin w r w' H. unfold os_remove in H.
  destruct (files w !! path); inversion H; subst; [|auto].
  split; [reflexivity|]. intros p Hp. simpl.
  apply lookup_delete_ne. intros ->. exact (Hp Hin).
Qed.

Lemma touches_render paths pdf_filename (accuracy roc_auc : M) conf_matrix
    class_report_df :
  classification_report_png ∈ paths -> confusion_matrix_png ∈ paths ->
  pdf_filename ∈ paths ->
  touches_only paths
    (render_report pdf_filename accuracy roc_auc conf_matrix class_report_df).
Proof.
  intros Hcr Hcm Hpdf.
  unfold render_report, create_classification_report_image, create_pdf,
    delete_images.
  repeat first
    [ apply touches_bind; [|intros ?]
    | apply touches_write; assumption
    | apply touches_remove; assumption
    | apply touches_read ].
Qed.

Lemma touches_build_cnn paths add_layers nf ks lu dr :
  CNN_LSTM_Hybrid.model_path ∈ paths ->
  touches_only (M:=M) paths
    (CNN_LSTM_Hybrid.build_cnn_lstm_model add_layers nf ks lu dr).
Proof.
  intros Hin. unfold CNN_LSTM_Hybrid.build_cnn_lstm_model.
  repeat first
    [ apply touches_bind; [|intros ?]
    | apply touches_write; assumption
    | apply touches_lift
    | apply touches_ret ].
Qed.

Lemma touches_optimize paths add_layers trials :
  CNN_LSTM_Hybrid.model_path ∈ paths ->
  touches_only (M:=M) paths (CNN_LSTM_Hybrid.optimize add_layers trials).
Proof.
  intros Hin. induction trials as [|[[[nf ks] lu] dr] trials IH].
  - apply touches_ret.
  - simpl. apply touches_bind; [|intros _; exact IH].
    unfold CNN_LSTM_Hybrid.objective.
    apply touches_bind; [apply touches_build_cnn; exact Hin|].
    intros m. apply touches_ret.
Qed.
End Touches.

(** X15. What the scripts write.  However a run ends, by an exception or
    not, the boosted script has touched no file but its pickle, the two
    images and its report, the recurrent script none but its model file,
    the two images and its report, and the residual script none but the
    two images and its report: it saves no model. *)
Theorem scripts_touch_only_their_files :
  forall (M : Type) (read_csv : string -> result DataFrame)
         (scale : list (list float) -> result (list (list float)))
         (resample : list (list float) -> list Z ->
                     result (list (list float) * list Z))
         (accuracy_score : list Z -> list Z -> M)
         (confusion_matrix : list Z -> list Z -> list (list nat))
         (classification_report : list Z -> list Z -> list (string * list M))
         (roc_auc_score : ndarray Z -> ndarray float -> result M)
         split_b random_search predict_proba predict_b
         split_n add_layers trials best_params predict_n
         fit_and_score fit_best,
    touches_only
      [GradientBoost.model_path; classification_report_png;
       confusion_matrix_png; GradientBoost.pdf_filename]
      (GradientBoost.main (M:=M) read_csv scale resample split_b random_search
         predict_proba predict_b accuracy_score confusion_matrix
         classification_report roc_auc_score)
    /\ touches_only
         [CNN_LSTM_Hybrid.model_path; classification_report_png;
          confusion_matrix_png; CNN_LSTM_Hybrid.pdf_filename]
         (CNN_LSTM_Hybrid.main (M:=M) read_csv scale resample split_n
            add_layers trials best_params predict_n accuracy_score
            confusion_matrix classification_report roc_auc_score)
    /\ touches_only
         [classification_report_png; confusion_matrix_png;
          resnet_Optimized.pdf_filename]
         (resnet_Optimized.main (M:=M) read_csv scale resample split_n
            fit_and_score fit_best accuracy_score confusion_matrix
            classification_report roc_auc_score).
Proof.
  intros. split; [|split].
  - unfold GradientBoost.main, GradientBoost.build_gradient_boosting_model,
      GradientBoost.evaluate_model, evaluate_model_boosted.
    repeat first
      [ apply touches_render; set_solver
      | apply touches_lift
      | apply touches_write; set_solver
      | apply touches_bind; [|intros ?] ].
  - unfold CNN_LSTM_Hybrid.main, CNN_LSTM_Hybrid.main_training,
      CNN_LSTM_Hybrid.evaluate_model, evaluate_model_network.
    destruct best_params as [[[nf ks] lu] dr].
    repeat first
      [ apply touches_render; set_solver
      | apply touches_optimize; set_solver
      | apply touches_build_cnn; set_solver
      | apply touches_lift
      | apply touches_ret
      | apply touches_bind; [|intros ?] ].
  - unfold resnet_Optimized.main, resnet_Optimized.evaluate_model,
      evaluate_model_network.
    repeat first
      [ apply touches_render; set_solver
      | apply touches_lift
      | apply touches_bind; [|intros ?] ].
Qed.

(** ** Whole runs *)

Section BoostedRun.
Context {M : Type}.
Variable read_csv : string -> result DataFrame.
Variable scale : list (list float) -> result (list (list float)).
Variable resample :
  list (list float) -> list Z -> result (list (list float) * list Z).
Variable split : list (list float) -> list Z -> result (Split (list float) Z).
Variable random_search :
  list (list float) -> list Z -> estimator -> result estimator.
Variable predict_proba : estimator -> list (list float) -> list (list float).
Variable predict : estimator -> list (list float) -> list Z.
Variable accuracy_score : list Z -> list Z -> M.
Variable confusion_matrix : list Z -> list Z -> list (list nat).
Variable classification_report : list Z -> list Z -> list (string * list M).
Variable roc_auc_score : ndarray Z -> ndarray float -> result M.

Local Abbreviation main :=
  (GradientBoost.main read_csv scale resample split random_search
     predict_proba predict accuracy_score confusion_matrix
     classification_report roc_auc_score).

Lemma boosted_main_after_pickle df s (w : World M) :
  read_csv GradientBoost.filename = Return df ->
  GradientBoost.prepare_data scale resample split df = Return s ->
  GradientBoost.model_path ∉ unwritable w ->
  main w
  = io_bind (io_lift (random_search (x_train s) (y_train s)
                        (MkEstimator "XGBClassifier" [] 0)))
      (fun model =>
         GradientBoost.evaluate_model accuracy_score confusion_matrix
           classification_report roc_auc_score (predict_proba model)
           (predict model) (x_test s) (y_test s))
      (MkWorld (<[GradientBoost.model_path :=
                    SavedModel (MkEstimator "XGBClassifier" [] 0)]> (files w))
               (unwritable w)).
Proof.
  intros Hload Hprep Hw. unfold GradientBoost.main.
  erewrite io_bind_step
    by (unfold io_lift; rewrite Hload; cbn [mbind result_bind];
        rewrite Hprep; reflexivity).
  unfold GradientBoost.build_gradient_boosting_model.
  rewrite io_bind_assoc.
  erewrite io_bind_step by (apply write_file_ok, Hw). reflexivity.
Qed.
End BoostedRun.

(** X16. A complete run of the boosted script.  When the file loads, the
    data are accepted, the search returns an estimator, [roc_auc_score]
    returns a value and the four paths can be written, [main] returns, and
    the machine differs from before in exactly this: the pickle holds the
    classifier as constructed, never fitted, and the report holds the
    metrics of the estimator the search returned on the test arrays. *)
Theorem boosted_main_success :
  forall (M : Type) (read_csv : string -> result DataFrame)
         (scale : list (list float) -> result (list (list float)))
         (resample : list (list float) -> list Z ->
                     result (list (list float) * list Z))
         (split : list (list float) -> list Z -> result (Split (list float) Z))
         (random_search : list (list float) -> list Z -> estimator ->
                          result estimator)
         (predict_proba : estimator -> list (list float) -> list (list float))
         (predict : estimator -> list (list float) -> list Z)
         (accuracy_score : list Z -> list Z -> M)
         (confusion_matrix : list Z -> list Z -> list (list nat))
         (classification_report : list Z -> list Z -> list (string * list M))
         (roc_auc_score : ndarray Z -> ndarray float -> result M)
         (df : DataFrame) (s : Split (list float) Z) (model : estimator)
         (roc_auc : M) (w : World M),
    read_csv GradientBoost.filename = Return df ->
    GradientBoost.prepare_data scale resample split df = Return s ->
    random_search (x_train s) (y_train s) (MkEstimator "XGBClassifier" [] 0)
    = Return model ->
    (col ← column_of 1 (predict_proba model (x_test s));
     roc_auc_score (Arr1 (y_test s)) (Arr1 col)) = Return roc_auc ->
    GradientBoost.model_path ∉ unwritable w ->
    classification_report_png ∉ unwritable w ->
    confusion_matrix_png ∉ unwritable w ->
    GradientBoost.pdf_filename ∉ unwritable w ->
    let y_pred := predict model (x_test s) in
    GradientBoost.main read_csv scale resample split random_search
      predict_proba predict accuracy_score confusion_matrix
      classification_report roc_auc_score w
    = (Return tt,
       report_rendered GradientBoost.pdf_filename
         (accuracy_score (y_test s) y_pred) roc_auc
         (confusion_matrix (y_test s) y_pred)
         (classification_report (y_test s) y_pred)
         (MkWorld (<[GradientBoost.model_path :=
                       SavedModel (MkEstimator "XGBClassifier" [] 0)]>
                     (files w))
                  (unwritable w))).
Proof.
  intros M read_csv scale resample split random_search predict_proba predict
    acc cm rep roc df s model roc_auc w Hload Hprep Hsearch Hroc
    Hw Hcr Hcm Hpdf y_pred.
  rewrite (boosted_main_after_pickle _ _ _ _ _ _ _ _ _ _ _ df s w Hload Hprep Hw).
  erewrite io_bind_step by (unfold io_lift; rewrite Hsearch; reflexivity).
  unfold GradientBoost.evaluate_model, evaluate_model_boosted.
  erewrite io_bind_step by (unfold io_lift; rewrite Hroc; reflexivity).
  apply render_report_run; try assumption; discriminate.
Qed.

(** X17. A run of the boosted script that fails after the data are
    prepared: when the search raises, or the search returns and
    [roc_auc_score] raises, [main] is left by that exception, and the only
    change is the pickle of the unfitted classifier; no report and no
    image is written. *)
Theorem boosted_main_failure_leaves_pickle :
  forall (M : Type) (read_csv : string -> result DataFrame)
         (scale : list (list float) -> result (list (list float)))
         (resample : list (list float) -> list Z ->
                     result (list (list float) * list Z))
         (split : list (list float) -> list Z -> result (Split (list float) Z))
         (random_search : list (list float) -> list Z -> estimator ->
                          result estimator)
         (predict_proba : estimator -> list (list float) -> list (list float))
         (predict : estimator -> list (list float) -> list Z)
         (accuracy_score : list Z -> list Z -> M)
         (confusion_matrix : list Z -> list Z -> list (list nat))
         (classification_report : list Z -> list Z -> list (string * list M))
         (roc_auc_score : ndarray Z -> ndarray float -> result M)
         (df : DataFrame) (s : Split (list float) Z) (e : exn) (w : World M),
    read_csv GradientBoost.filename = Return df ->
    GradientBoost.prepare_data scale resample split df = Return s ->
    GradientBoost.model_path ∉ unwritable w ->
    (model ← random_search (x_train s) (y_train s)
               (MkEstimator "XGBClassifier" [] 0);
     col ← column_of 1 (predict_proba model (x_test s));
     roc_auc_score (Arr1 (y_test s)) (Arr1 col)) = Raise e ->
    GradientBoost.main read_csv scale resample split random_search
      predict_proba predict accuracy_score confusion_matrix
      classification_report roc_auc_score w
    = (Raise e,
       MkWorld (<[GradientBoost.model_path :=
                    SavedModel (MkEstimator "XGBClassifier" [] 0)]> (files w))
               (unwritable w)).
Proof.
  intros M read_csv scale resample split random_search predict_proba predict
    acc cm rep roc df s e w Hload Hprep Hw Hfail.
  rewrite (boosted_main_after_pickle _ _ _ _ _ _ _ _ _ _ _ df s w Hload Hprep Hw).
  unfold io_bind at 1. unfold io_lift at 1.
  destruct (random_search (x_train s) (y_train s) _) as [model|e'] eqn:Hs.
  - cbn [mbind result_bind] in Hfail.
    unfold GradientBoost.evaluate_model, evaluate_model_boosted.
    unfold io_bind, io_lift. rewrite Hfail. reflexivity.
  - cbn [mbind result_bind] in Hfail. congruence.
Qed.

Lemma boosted_main_success_witness :
  exists w' report,
    GradientBoost.main (demo_read_csv good_table) demo_scale demo_resample
      demo_split demo_random_search demo_predict_proba demo_predict
      sklearn.accuracy_score sklearn.confusion_matrix
      sklearn.classification_report sklearn.roc_auc_score fresh_world
    = (Return tt, w')
    /\ files w' !! GradientBoost.pdf_filename = Some report
    /\ files w' !! GradientBoost.model_path
       = Some (SavedModel (MkEstimator "XGBClassifier" [] 0))
    /\ files w' !! classification_report_png = None.
Proof.
  do 2 eexists. split.
  - eapply (boosted_main_success Q (demo_read_csv good_table) demo_scale
              demo_resample demo_split demo_random_search demo_predict_proba
              demo_predict sklearn.accuracy_score sklearn.confusion_matrix
              sklearn.classification_report sklearn.roc_auc_score).
    + reflexivity.
    + vm_compute. reflexivity.
    + reflexivity.
    + vm_compute. reflexivity.
    + simpl. apply not_elem_of_empty.
    + simpl. apply not_elem_of_empty.
    + simpl. apply not_elem_of_empty.
    + simpl. apply not_elem_of_empty.
  - split; [apply lookup_insert_eq|]. split; reflexivity.
Defined.

Lemma boosted_main_failure_leaves_pickle_witness :
  GradientBoost.main (demo_read_csv sample_table) demo_scale demo_resample
    demo_split demo_random_search demo_predict_proba demo_predict
    sklearn.accuracy_score sklearn.confusion_matrix
    sklearn.classification_report sklearn.roc_auc_score fresh_world
  = (Raise (Exn "ValueError"
              "Only one class present in y_true. ROC AUC score is not defined in that case."),
     MkWorld {[GradientBoost.model_path :=
                 SavedModel (MkEstimator "XGBClassifier" [] 0)]} ∅).
Proof.
  rewrite <- insert_empty.
  eapply (boosted_main_failure_leaves_pickle Q (demo_read_csv sample_table)
            demo_scale demo_resample demo_split demo_random_search
            demo_predict_proba demo_predict sklearn.accuracy_score
            sklearn.confusion_matrix sklearn.classification_report
            sklearn.roc_auc_score).
  - reflexivity.
  - vm_compute. reflexivity.
  - simpl. apply not_elem_of_empty.
  - vm_compute. reflexivity.
Defined.

(** X18. The recurrent script never completes a run and never writes a
    file.  Whatever the input file holds and whatever the libraries of
    [prepare_data] and of [evaluate_model] do, [main] is left by an
    exception with the machine as it was: no model file, no image, no
    report.  When the file loads and the data are accepted, the exception
    is the [ValueError] with which Keras refuses the recurrent layer
    after [Flatten], raised in the first trial of the search. *)
Theorem recurrent_main_never_completes :
  forall (M : Type) (read_csv : string -> result DataFrame)
         (scale : list (list float) -> result (list (list float)))
         (resample : list (list float) -> list Z ->
                     result (list (list float) * list Z))
         (split : list (list (list float)) -> list (list Z) ->
                  result (Split (list (list float)) (list Z)))
         (input_shape : list Z)
         (trials : list (Z * Z * Z * float)) (best_params : Z * Z * Z * float)
         (predict : estimator -> list (list (list float)) -> list (list float))
         (accuracy_score : list Z -> list Z -> M)
         (confusion_matrix : list Z -> list Z -> list (list nat))
         (classification_report : list Z -> list Z -> list (string * list M))
         (roc_auc_score : ndarray Z -> ndarray float -> result M)
         (w : World M),
    exists e,
      CNN_LSTM_Hybrid.main read_csv scale resample split
        (CNN_LSTM_Hybrid.add_layers input_shape) trials best_params predict
        accuracy_score confusion_matrix classification_report roc_auc_score w
      = (Raise e, w)
      /\ forall s,
           (df ← read_csv CNN_LSTM_Hybrid.filename;
            CNN_LSTM_Hybrid.prepare_data scale resample split df) = Return s ->
           exn_class e = "ValueError".
Proof.
  intros M read_csv scale resample split input_shape trials best_params
    predict acc cm rep roc w.
  destruct (main_training_rejected (M:=M) input_shape trials best_params)
    as (e & Hcls & Ht).
  destruct (df ← read_csv CNN_LSTM_Hybrid.filename;
            CNN_LSTM_Hybrid.prepare_data scale resample split df)
    as [s|e0] eqn:Hdata.
  - exists e. split; [|intros _ _; exact Hcls].
    unfold CNN_LSTM_Hybrid.main. unfold io_bind at 1. unfold io_lift.
    rewrite Hdata. unfold io_bind at 1. rewrite Ht. reflexivity.
  - exists e0. split; [|intros s Hs; discriminate Hs].
    unfold CNN_LSTM_Hybrid.main. unfold io_bind at 1. unfold io_lift.
    rewrite Hdata. reflexivity.
Qed.

(** The recurrent script on ten good records: the data are prepared, the
    first trial is refused, nothing is written. *)
Example recurrent_main_run :
  CNN_LSTM_Hybrid.main (demo_read_csv good_table) demo_scale demo_resample
    demo_split (CNN_LSTM_Hybrid.add_layers [8; 1]%Z)
    [(128%Z, 1%Z, 150%Z, 0.5)] (64%Z, 2%Z, 100%Z, 0.25) demo_predict_proba
    sklearn.accuracy_score sklearn.confusion_matrix
    sklearn.classification_report sklearn.roc_auc_score fresh_world
  = (Raise (keras.incompatible "lstm"), fresh_world).
Proof. vm_compute. reflexivity. Qed.

(** X19. Rejected data: when reading the file or [prepare_data] raises,
    each of the three scripts is left by that exception with no file
    written; the residual script, which loads and prepares inside every
    trial, is left by it in its first trial. *)
Theorem rejected_data_writes_nothing :
  forall (M : Type) (read_csv : string -> result DataFrame)
         (scale : list (list float) -> result (list (list float)))
         (resample : list (list float) -> list Z ->
                     result (list (list float) * list Z))
         (accuracy_score : list Z -> list Z -> M)
         (confusion_matrix : list Z -> list Z -> list (list nat))
         (classification_report : list Z -> list Z -> list (string * list M))
         (roc_auc_score : ndarray Z -> ndarray float -> result M)
         split_b random_search predict_proba predict_b
         split_n add_layers trials best_params predict_n
         fit_and_score fit_best (e : exn) (w : World M),
    ((df ← read_csv GradientBoost.filename;
      GradientBoost.prepare_data scale resample split_b df) = Raise e ->
     GradientBoost.main read_csv scale resample split_b random_search
       predict_proba predict_b accuracy_score confusion_matrix
       classification_report roc_auc_score w = (Raise e, w))
    /\ ((df ← read_csv CNN_LSTM_Hybrid.filename;
         CNN_LSTM_Hybrid.prepare_data scale resample split_n df) = Raise e ->
        CNN_LSTM_Hybrid.main read_csv scale resample split_n add_layers
          trials best_params predict_n accuracy_score confusion_matrix
          classification_report roc_auc_score w = (Raise e, w))
    /\ ((df ← read_csv resnet_Optimized.filename;
         resnet_Optimized.prepare_data scale resample split_n df) = Raise e ->
        resnet_Optimized.objective read_csv scale resample split_n
          (fit_and_score 0%nat) = Raise e
        /\ resnet_Optimized.main read_csv scale resample split_n
             fit_and_score fit_best accuracy_score confusion_matrix
             classification_report roc_auc_score w = (Raise e, w)).
Proof.
  intros. split; [|split]; intros H.
  - unfold GradientBoost.main, io_bind, io_lift. rewrite H. reflexivity.
  - unfold CNN_LSTM_Hybrid.main, io_bind, io_lift. rewrite H. reflexivity.
  - assert (Hobj : resnet_Optimized.objective read_csv scale resample split_n
                     (fit_and_score 0%nat) = Raise e).
    { unfold resnet_Optimized.objective. rewrite H. reflexivity. }
    split; [exact Hobj|].
    unfold resnet_Optimized.main, resnet_Optimized.optimize.
    change (seq 0 50) with (0%nat :: seq 1 49). cbn [mapM].
    rewrite Hobj. reflexivity.
Qed.

Lemma rejected_data_writes_nothing_witness :
  resnet_Optimized.main (demo_read_csv rejected_table) demo_scale
    demo_resample demo_split
    (fun _ s => Return (sklearn.accuracy_score [1; 0]%Z [1; 1]%Z))
    (fun _ s => Return (demo_predict_proba (MkEstimator "Model" [] 1)))
    sklearn.accuracy_score sklearn.confusion_matrix
    sklearn.classification_report sklearn.roc_auc_score fresh_world
  = (Raise empty_table_error, fresh_world).
Proof.
  destruct (rejected_data_writes_nothing Q (demo_read_csv rejected_table)
              demo_scale demo_resample sklearn.accuracy_score
              sklearn.confusion_matrix sklearn.classification_report
              sklearn.roc_auc_score demo_split demo_random_search
              demo_predict_proba demo_predict demo_split
              (CNN_LSTM_Hybrid.add_layers [8; 1]%Z) []
              (32%Z, 1%Z, 50%Z, 0.5) demo_predict_proba
              (fun _ s => Return (sklearn.accuracy_score [1; 0]%Z [1; 1]%Z))
              (fun _ s => Return (demo_predict_proba (MkEstimator "Model" [] 1)))
              empty_table_error fresh_world) as (_ & _ & H).
  apply H. reflexivity.
Defined.
